(** * CryptoV1: the security-gated trading workflow of [CryptoTrader]

    A shallow embedding of [src/CryptoV1.py].  The Python objects the
    script handles (the YAML configuration, the JSON documents returned
    by DexScreener, RugCheck and GMGN) are values of [pyval]; the
    interpreter's exceptions are values of [exn]; the HTTP session is an
    oracle answering requests, and every request issued is recorded in a
    trace.  Each method of [CryptoTrader] is one definition of the same
    name, written in a state-and-exception monad.

    Scope of the value model: JSON/YAML scalars are [None], booleans,
    integers and strings; binary floating-point numbers are not
    represented.  Strings are byte strings; case mapping and [repr] are
    the ASCII ones.  Dictionaries have string keys and keep insertion
    order.  Logging only writes to the console and is not modelled, but
    the arguments of every logging call are evaluated as in the source. *)

From Stdlib Require Import ZArith List String Ascii Bool Lia.
From Stdlib Require Import DecimalString DecimalPos.
Import ListNotations.
Open Scope string_scope.
Open Scope Z_scope.

(** ** Python values and exceptions *)

#[local] Set Warnings "-register-all".

Inductive pyval : Type :=
| VNone
| VBool (b : bool)
| VInt (z : Z)
| VStr (s : string)
| VList (l : list pyval)
| VDict (d : list (string * pyval)).

(** The exceptions the script can meet.  [KeyError] keeps the missing
    key, the others the message [str(e)] yields.  [RequestError] stands
    for whatever the HTTP layer raises: connection errors, timeouts and
    the decoding error of [response.json()]. *)
Inductive exn : Type :=
| KeyError (key : string)
| TypeError (msg : string)
| AttributeError (msg : string)
| ValueError (msg : string)
| DecimalSignal (msg : string)
| RequestError (msg : string).

(** A computation that either raises or returns. *)
Definition res (A : Type) : Type := (exn + A)%type.

Definition res_bind {A B} (r : res A) (k : A -> res B) : res B :=
  match r with
  | inl e => inl e
  | inr a => k a
  end.

Module Py.

(** [type(v).__name__] *)
Definition type_name (v : pyval) : string :=
  match v with
  | VNone => "NoneType"
  | VBool _ => "bool"
  | VInt _ => "int"
  | VStr _ => "str"
  | VList _ => "list"
  | VDict _ => "dict"
  end.

(** [bool(v)]: the test of [if not v]. *)
Definition truthy (v : pyval) : bool :=
  match v with
  | VNone => false
  | VBool b => b
  | VInt z => negb (z =? 0)
  | VStr s => negb (s =? "")%string
  | VList l => match l with [] => false | _ => true end
  | VDict d => match d with [] => false | _ => true end
  end.

Fixpoint lookup (k : string) (d : list (string * pyval)) : option pyval :=
  match d with
  | [] => None
  | (k', v) :: d' => if (k =? k')%string then Some v else lookup k d'
  end.

(** [str(int)] *)
Definition str_of_Z (z : Z) : string := NilZero.string_of_int (Z.to_int z).

Definition hex_digit (n : N) : ascii :=
  if (n <? 10)%N then ascii_of_N (48 + n) else ascii_of_N (87 + n).

(** One character of [repr(str)] inside the quote [q]. *)
Definition repr_char (q c : ascii) : string :=
  let n := N_of_ascii c in
  if (c =? "\")%char then "\\"
  else if (c =? q)%char then String "\" (String q "")
  else if (n =? 10)%N then "\n"
  else if (n =? 13)%N then "\r"
  else if (n =? 9)%N then "\t"
  else if ((n <? 32) || (n =? 127))%N
       then String "\" (String "x" (String (hex_digit (n / 16)) (String (hex_digit (n mod 16)) "")))
  else String c "".

Fixpoint contains_char (c : ascii) (s : string) : bool :=
  match s with
  | EmptyString => false
  | String c' s' => (c =? c')%char || contains_char c s'
  end.

Fixpoint repr_body (q : ascii) (s : string) : string :=
  match s with
  | EmptyString => ""
  | String c s' => repr_char q c ++ repr_body q s'
  end.

Definition double_quote : ascii := ascii_of_N 34.

(** [repr(s)] of a string: single quotes unless the string has a single
    quote and no double quote. *)
Definition repr_str (s : string) : string :=
  let q := if contains_char "'" s && negb (contains_char double_quote s)
           then double_quote else "'"%char in
  String q (repr_body q s ++ String q "").

(** [repr(v)] *)
Fixpoint repr (v : pyval) : string :=
  match v with
  | VNone => "None"
  | VBool true => "True"
  | VBool false => "False"
  | VInt z => str_of_Z z
  | VStr s => repr_str s
  | VList l =>
      "[" ++ String.concat ", " (List.map repr l) ++ "]"
  | VDict d =>
      "{" ++ String.concat ", "
               (List.map (fun kv => repr_str (fst kv) ++ ": " ++ repr (snd kv)) d)
          ++ "}"
  end.

(** [str(v)], which is what an f-string field [{v}] renders. *)
Definition str (v : pyval) : string :=
  match v with
  | VStr s => s
  | _ => repr v
  end.

(** [str(e)] of an exception. *)
Definition exn_str (e : exn) : string :=
  match e with
  | KeyError k => repr_str k
  | TypeError m | AttributeError m | ValueError m
  | DecimalSignal m | RequestError m => m
  end.

(** [v[k]] with a string key. *)
Definition subscript (v : pyval) (k : string) : res pyval :=
  match v with
  | VDict d =>
      match lookup k d with
      | Some x => inr x
      | None => inl (KeyError k)
      end
  | VList _ => inl (TypeError "list indices must be integers or slices, not str")
  | VStr _ => inl (TypeError "string indices must be integers, not 'str'")
  | _ => inl (TypeError ("'" ++ type_name v ++ "' object is not subscriptable"))
  end.

Definition no_attribute (v : pyval) (a : string) : exn :=
  AttributeError ("'" ++ type_name v ++ "' object has no attribute '" ++ a ++ "'").

(** [v.get(k, default)] *)
Definition get (v : pyval) (k : string) (default : pyval) : res pyval :=
  match v with
  | VDict d =>
      match lookup k d with
      | Some x => inr x
      | None => inr default
      end
  | _ => inl (no_attribute v "get")
  end.

(** Case mapping is the ASCII one: the letters A to Z are lowered and
    every other byte is kept.  It is [str.lower()] on ASCII strings;
    the Unicode mapping of the other characters is not modelled. *)
Definition lower_char (c : ascii) : ascii :=
  let n := N_of_ascii c in
  if ((65 <=? n) && (n <=? 90))%N then ascii_of_N (n + 32) else c.

Fixpoint lower_string (s : string) : string :=
  match s with
  | EmptyString => EmptyString
  | String c s' => String (lower_char c) (lower_string s')
  end.

(** [v.lower()] *)
Definition lower (v : pyval) : res string :=
  match v with
  | VStr s => inr (lower_string s)
  | _ => inl (no_attribute v "lower")
  end.

Fixpoint is_substring (s t : string) : bool :=
  String.prefix s t ||
  match t with
  | EmptyString => false
  | String _ t' => is_substring s t'
  end.

Definition str_eq (s : string) (v : pyval) : bool :=
  match v with
  | VStr t => (s =? t)%string
  | _ => false
  end.

(** [s in container] for a string [s]. *)
Definition contains (container : pyval) (s : string) : res bool :=
  match container with
  | VList l => inr (existsb (str_eq s) l)
  | VDict d => inr (match lookup s d with Some _ => true | None => false end)
  | VStr t => inr (is_substring s t)
  | _ => inl (TypeError ("argument of type '" ++ type_name container ++ "' is not iterable"))
  end.

(** The integer a number stands for ([bool] is a subclass of [int]). *)
Definition as_int (v : pyval) : option Z :=
  match v with
  | VBool b => Some (if b then 1 else 0)
  | VInt z => Some z
  | _ => None
  end.

(** [a == b] *)
Fixpoint eq (a b : pyval) : bool :=
  match a with
  | VNone => match b with VNone => true | _ => false end
  | VBool _ | VInt _ =>
      match as_int a, as_int b with
      | Some x, Some y => x =? y
      | _, _ => false
      end
  | VStr s => str_eq s b
  | VList l =>
      match b with
      | VList m =>
          (fix go (l m : list pyval) : bool :=
             match l, m with
             | [], [] => true
             | x :: l', y :: m' => eq x y && go l' m'
             | _, _ => false
             end) l m
      | _ => false
      end
  | VDict d =>
      match b with
      | VDict d' =>
          (List.length d =? List.length d')%nat &&
          (fix go (d : list (string * pyval)) : bool :=
             match d with
             | [] => true
             | (k, v) :: r =>
                 match lookup k d' with
                 | Some v' => eq v v' && go r
                 | None => false
                 end
             end) d
      | _ => false
      end
  end.

Definition not_supported (op : string) (a b : pyval) : exn :=
  TypeError ("'" ++ op ++ "' not supported between instances of '"
                 ++ type_name a ++ "' and '" ++ type_name b ++ "'").

(** [a < b] *)
Fixpoint lt (a b : pyval) : res bool :=
  match a with
  | VBool _ | VInt _ =>
      match as_int a, as_int b with
      | Some x, Some y => inr (x <? y)
      | _, _ => inl (not_supported "<" a b)
      end
  | VStr s =>
      match b with
      | VStr t => inr (String.ltb s t)
      | _ => inl (not_supported "<" a b)
      end
  | VList l =>
      match b with
      | VList m =>
          (fix go (l m : list pyval) : res bool :=
             match l, m with
             | [], [] => inr false
             | [], _ :: _ => inr true
             | _ :: _, [] => inr false
             | x :: l', y :: m' => if eq x y then go l' m' else lt x y
             end) l m
      | _ => inl (not_supported "<" a b)
      end
  | _ => inl (not_supported "<" a b)
  end.

End Py.

(** ** The [decimal] module under the script's context

    [getcontext().prec = 18] leaves the other fields of the default
    context: rounding half-even, [Emin = -999999], [Emax = 999999], no
    clamping, and the traps [InvalidOperation], [DivisionByZero] and
    [Overflow], which raise. *)

Module Dec.

Inductive decimal : Type :=
| Fin (neg : bool) (coeff : Z) (exp : Z)
| Inf (neg : bool)
| NaN (neg : bool) (signaling : bool) (payload : Z).

Definition prec : Z := 18.
Definition Emax : Z := 999999.
Definition Emin : Z := -999999.
Definition Etiny : Z := Emin - prec + 1.
Definition Etop : Z := Emax - prec + 1.

Definition zero : decimal := Fin false 0 0.

(** [0 < d] *)
Definition is_positive (d : decimal) : bool :=
  match d with
  | Fin false c _ => 0 <? c
  | Inf false => true
  | _ => false
  end.

(** The signed coefficient of a finite decimal counted in units of
    [10^m], for [m] at most its exponent. *)
Definition scaled (neg : bool) (c e m : Z) : Z :=
  (if neg then - c else c) * 10 ^ (e - m).

(** [a <= b] on finite decimals (false when either is special). *)
Definition fin_leb (a b : decimal) : bool :=
  match a, b with
  | Fin n c e, Fin n' c' e' =>
      let m := Z.min e e' in scaled n c e m <=? scaled n' c' e' m
  | _, _ => false
  end.

Definition one : decimal := Fin false 1 0.

Definition overflow : exn := DecimalSignal "[<class 'decimal.Overflow'>]".
Definition invalid_operation : exn :=
  DecimalSignal "[<class 'decimal.InvalidOperation'>]".
Definition conversion_syntax : exn :=
  DecimalSignal "[<class 'decimal.ConversionSyntax'>]".

Fixpoint ndigits_fuel (fuel : nat) (c : Z) : Z :=
  match fuel with
  | O => 1
  | S f => if c <? 10 then 1 else 1 + ndigits_fuel f (c / 10)
  end.

(** Number of digits of the coefficient, [len(self._int)]. *)
Definition ndigits (c : Z) : Z := ndigits_fuel (Z.to_nat (Z.log2 c)) c.

(** The coefficient [c] without its last [k] digits, rounded half-even. *)
Definition round_half_even (c k : Z) : Z * bool :=
  let p := 10 ^ k in
  let q := c / p in
  let r := c mod p in
  (q, (2 * r >? p) || ((2 * r =? p) && Z.odd q)).

(** [Decimal._fix]: round a finite result to the context. *)
Definition fix_ctx (neg : bool) (c e : Z) : res decimal :=
  if c =? 0 then inr (Fin neg 0 (Z.min (Z.max e Etiny) Emax))
  else
    let exp_min := ndigits c + e - prec in
    if exp_min >? Etop then inl overflow
    else
      let exp_min := Z.max exp_min Etiny in
      if e <? exp_min then
        let '(q, up) := round_half_even c (exp_min - e) in
        let '(coeff, exp_min) :=
          if up then
            if ndigits (q + 1) >? prec then ((q + 1) / 10, exp_min + 1)
            else (q + 1, exp_min)
          else (q, exp_min) in
        if exp_min >? Etop then inl overflow
        else inr (Fin neg coeff exp_min)
      else inr (Fin neg c e).

(** [Decimal._fix_nan]: a payload keeps its last [prec] digits. *)
Definition fix_nan (neg : bool) (payload : Z) : decimal :=
  NaN neg false (if ndigits payload >? prec then payload mod 10 ^ prec else payload).

(** [a * b] *)
Definition mul (a b : decimal) : res decimal :=
  match a, b with
  | NaN _ true _, _ => inl invalid_operation
  | _, NaN _ true _ => inl invalid_operation
  | NaN n false p, _ => inr (fix_nan n p)
  | _, NaN n false p => inr (fix_nan n p)
  | Inf n, Inf m => inr (Inf (xorb n m))
  | Inf n, Fin m c _ | Fin m c _, Inf n =>
      if c =? 0 then inl invalid_operation else inr (Inf (xorb n m))
  | Fin n c e, Fin m c' e' => fix_ctx (xorb n m) (c * c') (e + e')
  end.

Definition zeros (n : Z) : string :=
  string_of_list_ascii (List.repeat "0"%char (Z.to_nat n)).

(** [str(d)]: scientific notation as [Decimal.__str__] prints it. *)
Definition to_str (d : decimal) : string :=
  match d with
  | Inf neg => (if neg then "-" else "") ++ "Infinity"
  | NaN neg sig p =>
      (if neg then "-" else "") ++ (if sig then "sNaN" else "NaN")
      ++ (if p =? 0 then "" else Py.str_of_Z p)
  | Fin neg c e =>
      let int := Py.str_of_Z c in
      let len := Z.of_nat (String.length int) in
      let leftdigits := e + len in
      let dotplace :=
        if (e <=? 0) && (leftdigits >? -6) then leftdigits else 1 in
      let mantissa :=
        if dotplace <=? 0 then "0." ++ zeros (- dotplace) ++ int
        else if dotplace >=? len then int ++ zeros (dotplace - len)
        else String.substring 0 (Z.to_nat dotplace) int ++ "."
             ++ String.substring (Z.to_nat dotplace) (Z.to_nat (len - dotplace)) int in
      let exp :=
        if leftdigits =? dotplace then ""
        else "E" ++ (if leftdigits - dotplace <? 0 then "" else "+")
                 ++ Py.str_of_Z (leftdigits - dotplace) in
      (if neg then "-" else "") ++ mantissa ++ exp
  end.

(** *** The constructor [Decimal(value)] *)

Definition is_digit (c : ascii) : bool :=
  let n := N_of_ascii c in ((48 <=? n) && (n <=? 57))%N.

Definition is_space (c : ascii) : bool :=
  let n := N_of_ascii c in
  (((9 <=? n) && (n <=? 13)) || ((28 <=? n) && (n <=? 32)))%N.

Fixpoint span_digits (l : list ascii) : list ascii * list ascii :=
  match l with
  | c :: l' =>
      if is_digit c then let '(ds, r) := span_digits l' in (c :: ds, r)
      else ([], l)
  | [] => ([], [])
  end.

Definition digits_value (l : list ascii) : Z :=
  fold_left (fun acc c => 10 * acc + (Z.of_N (N_of_ascii c) - 48)) l 0.

Fixpoint lstrip (l : list ascii) : list ascii :=
  match l with
  | c :: l' => if is_space c then lstrip l' else l
  | [] => []
  end.

Definition strip (l : list ascii) : list ascii :=
  rev (lstrip (rev (lstrip l))).

Definition split_sign (l : list ascii) : bool * list ascii :=
  match l with
  | "-"%char :: r => (true, r)
  | "+"%char :: r => (false, r)
  | _ => (false, l)
  end.

(** The optional exponent part and the end of the string. *)
Definition parse_exponent (l : list ascii) : option Z :=
  match l with
  | [] => Some 0
  | c :: r =>
      if (Py.lower_char c =? "e")%char then
        let '(neg, r) := split_sign r in
        match span_digits r with
        | ((_ :: _) as ds, []) =>
            Some (if neg then - digits_value ds else digits_value ds)
        | _ => None
        end
      else None
  end.

Definition parse_number (l : list ascii) : option (Z * Z) :=
  let '(int, r) := span_digits l in
  let '(frac, r) :=
    match r with
    | "."%char :: r' => span_digits r'
    | _ => ([], r)
    end in
  match (int ++ frac)%list with
  | [] => None
  | ds =>
      match parse_exponent r with
      | Some e => Some (digits_value ds, e - Z.of_nat (List.length frac))
      | None => None
      end
  end.

Definition parse_special (neg : bool) (l : list ascii) : option decimal :=
  let s := Py.lower_string (string_of_list_ascii l) in
  if ((s =? "inf") || (s =? "infinity"))%string then Some (Inf neg)
  else
    let '(sig, r) :=
      match list_ascii_of_string s with
      | "s"%char :: r => (true, r)
      | r => (false, r)
      end in
    match r with
    | "n"%char :: "a"%char :: "n"%char :: ds =>
        if forallb is_digit ds then Some (NaN neg sig (digits_value ds))
        else None
    | _ => None
    end.

(** [Decimal(s)] for a string.  The exponent is read whatever its
    size; the limit of the C implementation on the exponents it
    converts (beyond 18 digits) is not modelled. *)
Definition of_string (s : string) : res decimal :=
  let l := List.filter (fun c => negb (c =? "_")%char)
                       (strip (list_ascii_of_string s)) in
  let '(neg, r) := split_sign l in
  match parse_number r with
  | Some (c, e) => inr (Fin neg c e)
  | None =>
      match parse_special neg r with
      | Some d => inr d
      | None => inl conversion_syntax
      end
  end.

Definition of_Z (z : Z) : decimal := Fin (z <? 0) (Z.abs z) 0.

Fixpoint tuple_digits (l : list pyval) : option (list Z) :=
  match l with
  | [] => Some []
  | v :: l' =>
      match Py.as_int v, tuple_digits l' with
      | Some z, Some zs =>
          if (0 <=? z) && (z <=? 9) then Some (z :: zs) else None
      | _, _ => None
      end
  end.

(** [Decimal([sign, digits, exponent])] *)
Definition of_sequence (l : list pyval) : res decimal :=
  match l with
  | [sign; digits; exponent] =>
      match Py.as_int sign with
      | Some s =>
          if (s =? 0) || (s =? 1) then
            let neg := s =? 1 in
            let coefficient :=
              match digits with
              | VList ds =>
                  match tuple_digits ds with
                  | Some zs => inr (fold_left (fun acc z => 10 * acc + z) zs 0)
                  | None => inl (ValueError "coefficient must be a tuple of digits")
                  end
              | _ => inl (ValueError "coefficient must be a tuple of digits")
              end in
            match exponent with
            | VStr "F" => res_bind coefficient (fun _ => inr (Inf neg))
            | VStr "n" => res_bind coefficient (fun c => inr (NaN neg false c))
            | VStr "N" => res_bind coefficient (fun c => inr (NaN neg true c))
            | VStr _ =>
                inl (ValueError "string argument in the third position must be 'F', 'n' or 'N'")
            | VInt _ | VBool _ =>
                res_bind coefficient (fun c =>
                  match Py.as_int exponent with
                  | Some e => inr (Fin neg c e)
                  | None => inl (ValueError "exponent must be an integer")
                  end)
            | _ => inl (ValueError "exponent must be an integer")
            end
          else inl (ValueError "sign must be an integer with the value 0 or 1")
      | None => inl (ValueError "sign must be an integer with the value 0 or 1")
      end
  | _ => inl (ValueError "argument must be a sequence of length 3")
  end.

(** [Decimal(v)], for the values of [pyval]: a string, an integer or
    a sequence.  A binary floating-point number, which [Decimal]
    converts to its exact expansion, is not a value of the model. *)
Definition of_pyval (v : pyval) : res decimal :=
  match v with
  | VStr s => of_string s
  | VInt z => inr (of_Z z)
  | VBool b => inr (of_Z (if b then 1 else 0))
  | VList l => of_sequence l
  | _ => inl (TypeError ("conversion from " ++ Py.type_name v
                           ++ " to Decimal is not supported"))
  end.

End Dec.

(** ** The HTTP session and the trace of requests *)

Notation "'let*' x ':=' c 'in' k" := (res_bind c (fun x => k))
  (at level 10, x name, c at level 100, k at level 200).

Inductive request : Type :=
| GET (url : string) (headers : list (string * pyval)) (timeout : Z)
| POST (url : string) (headers : list (string * pyval)) (json : pyval) (timeout : Z).

(** What the script reads of a [requests.Response]: [status_code],
    [text], and the outcome of [json()], which raises on a body that is
    not JSON. *)
Record response : Type := mkResponse {
  status_code : Z;
  text : string;
  json : res pyval
}.

(** The requests issued so far, oldest first. *)
Definition trace : Type := list request.

(** The outside world: given the requests already made, a request either
    raises (connection error, timeout) or is answered. *)
Definition Session : Type := trace -> request -> res response.

(** Computations that issue requests and may raise. *)
Definition M (A : Type) : Type := trace -> res A * trace.

Definition ret {A} (a : A) : M A := fun tr => (inr a, tr).

Definition bind {A B} (c : M A) (k : A -> M B) : M B :=
  fun tr =>
    match c tr with
    | (inl e, tr') => (inl e, tr')
    | (inr a, tr') => k a tr'
    end.

Definition lift {A} (r : res A) : M A := fun tr => (r, tr).

(** [try: c  except Exception as e: h e] *)
Definition try_except {A} (c : M A) (h : exn -> M A) : M A :=
  fun tr =>
    match c tr with
    | (inl e, tr') => h e tr'
    | (inr a, tr') => (inr a, tr')
    end.

Notation "x <- c ;; k" := (bind c (fun x => k))
  (at level 61, c at next level, right associativity).

Definition is_post (r : request) : bool :=
  match r with
  | POST _ _ _ _ => true
  | GET _ _ _ => false
  end.

(** The order submissions of a trace. *)
Definition posts (tr : trace) : list request := List.filter is_post tr.

(** ** The values the workflow returns *)

Definition error_result (message : string) : pyval :=
  VDict [("status", VStr "error"); ("message", VStr message)].

Definition success_result (order : pyval) : pyval :=
  VDict [("status", VStr "success"); ("order", order)].

Definition failed (reason : string) : pyval :=
  VDict [("passed", VBool false); ("reason", VStr reason)].

Definition passed : pyval := VDict [("passed", VBool true)].

Definition approved : pyval :=
  VDict [("approved", VBool true); ("message", VStr "Security checks passed")].

(** The workflow outcomes the specification names, and how a returned
    dictionary reads as one: a [status] of [success] or [error], or else
    a check verdict that did not pass. *)
Inductive TradeResult : Type :=
| Success (order_confirmation : pyval)
| Rejected (reason : string)
| Error (message : string).

Definition trade_result (r : pyval) : option TradeResult :=
  match r with
  | VDict d =>
      match Py.lookup "status" d with
      | Some (VStr s) =>
          if (s =? "success")%string then option_map Success (Py.lookup "order" d)
          else if (s =? "error")%string then
            match Py.lookup "message" d with
            | Some (VStr m) => Some (Error m)
            | _ => None
            end
          else None
      | Some _ => None
      | None =>
          match Py.lookup "passed" d, Py.lookup "reason" d with
          | Some p, Some (VStr m) =>
              if Py.truthy p then None else Some (Rejected m)
          | _, _ => None
          end
      end
  | _ => None
  end.

(** ** class CryptoTrader *)

Section CryptoTrader.

(** [self.config], the document [yaml.safe_load] returned, and
    [self.session]. *)
Variable config : pyval.
Variable session : Session.

(** [self.session.get(...)] and [self.session.post(...)]. *)
Definition send (req : request) : M response :=
  fun tr => (session tr req, (tr ++ [req])%list).

(** [self.config[a][b]] *)
Definition config_at (a b : string) : res pyval :=
  let* section := Py.subscript config a in
  Py.subscript section b.

(** *** Security checks *)

Definition _check_blacklists (data : pyval) : res pyval :=
  let* pair := Py.subscript data "pairAddress" in
  let* pair_addr := Py.lower pair in
  let* creator := Py.get data "creator" (VStr "") in
  let* creator_addr := Py.lower creator in
  let* tokens := config_at "blacklists" "tokens" in
  let* token_listed := Py.contains tokens pair_addr in
  if token_listed then inr (failed "Token blacklisted")
  else
    let* developers := config_at "blacklists" "developers" in
    let* developer_listed := Py.contains developers creator_addr in
    if developer_listed then inr (failed "Developer blacklisted")
    else inr passed.

Definition _check_rug_pull_risk (data : pyval) : M pyval :=
  try_except
    (endpoint <- lift (config_at "rugcheck" "endpoint") ;;
     address <- lift (let* base := Py.subscript data "baseToken" in
                      Py.subscript base "address") ;;
     response <- send (GET (Py.str endpoint ++ "/audit/" ++ Py.str address) [] 10) ;;
     audit <- lift (json response) ;;
     status <- lift (Py.get audit "auditStatus" VNone) ;;
     if negb (Py.eq status (VStr "GOOD")) then
       ret (failed "Failed security audit")
     else
       score <- lift (Py.get audit "auditScore" (VInt 0)) ;;
       min_score <- lift (config_at "rugcheck" "min_score") ;;
       low <- lift (Py.lt score min_score) ;;
       if low then
         shown <- lift (Py.subscript audit "auditScore") ;;
         ret (failed ("Low audit score: " ++ Py.str shown))
       else ret passed)
    (fun _ => ret (failed "Audit verification error")).

(** The three unfinished checks: a body of [...] returns [None]. *)
Definition _check_liquidity (data : pyval) : res pyval := inr VNone.
Definition _validate_volume (data : pyval) : res pyval := inr VNone.
Definition _analyze_holders (data : pyval) : res pyval := inr VNone.

Definition checks : list (pyval -> M pyval) :=
  [ (fun data => lift (_check_blacklists data));
    _check_rug_pull_risk;
    (fun data => lift (_check_liquidity data));
    (fun data => lift (_validate_volume data));
    (fun data => lift (_analyze_holders data)) ].

(** The loop [for check in checks] of [_security_analysis]. *)
Fixpoint run_checks (cs : list (pyval -> M pyval)) (data : pyval) : M pyval :=
  match cs with
  | [] => ret approved
  | check :: rest =>
      result <- check data ;;
      verdict <- lift (Py.subscript result "passed") ;;
      if negb (Py.truthy verdict) then ret result
      else run_checks rest data
  end.

Definition _security_analysis (data : pyval) : M pyval :=
  run_checks checks data.

(** *** Utility methods *)

Definition _get_dexscreener_data (pair_address : string) : M pyval :=
  try_except
    (response <- send (GET ("https://api.dexscreener.com/latest/dex/pairs/"
                              ++ pair_address) [] 10) ;;
     lift (json response))
    (fun _ => ret VNone).

(** The body of the [try] block of [_get_gmgn_balance]. *)
Definition read_balance : M Dec.decimal :=
  endpoint <- lift (config_at "gmgn" "endpoint") ;;
  api_key <- lift (config_at "gmgn" "api_key") ;;
  response <- send (GET (Py.str endpoint ++ "/account/balance")
                        [("X-API-KEY", api_key)] 5) ;;
  body <- lift (json response) ;;
  lift (let* available := Py.subscript body "available" in
        Dec.of_pyval available).

Definition _get_gmgn_balance : M Dec.decimal :=
  try_except read_balance (fun _ => ret Dec.zero).

(** *** Trade execution *)

(** [balance * Decimal(self.config["trading"]["position_size_pct"])] *)
Definition position_size (balance : Dec.decimal) : res Dec.decimal :=
  let* pct := config_at "trading" "position_size_pct" in
  let* pct := Dec.of_pyval pct in
  Dec.mul balance pct.

(** The order payload, its values evaluated in the order of the
    dictionary display. *)
Definition order_payload (data : pyval) (size : Dec.decimal) : res pyval :=
  let* pair := Py.subscript data "pairAddress" in
  let* base := Py.subscript data "baseToken" in
  let* base := Py.subscript base "address" in
  let* quote := Py.subscript data "quoteToken" in
  let* quote := Py.subscript quote "address" in
  let amount := VStr (Dec.to_str size) in
  let* price := Py.subscript data "priceUsd" in
  let* leverage := config_at "trading" "leverage" in
  let* stop_loss := config_at "risk" "stop_loss_pct" in
  let* take_profit := config_at "risk" "take_profit_pct" in
  inr (VDict [("pair", pair); ("baseToken", base); ("quoteToken", quote);
              ("amount", amount); ("price", price); ("side", VStr "BUY");
              ("leverage", leverage); ("stopLoss", stop_loss);
              ("takeProfit", take_profit)]).

(** The request [self.session.post(...)] is called with. *)
Definition order_request (order : pyval) : res request :=
  let* endpoint := config_at "gmgn" "endpoint" in
  let* api_key := config_at "gmgn" "api_key" in
  inr (POST (Py.str endpoint ++ "/orders") [("X-API-KEY", api_key)] order 10).

(** Reading the venue's answer.  [logging.info] formats
    [response.json()] before the [return] decodes it again. *)
Definition order_outcome (r : response) : res pyval :=
  if status_code r =? 201 then
    let* logged := json r in
    let* order := json r in
    inr (success_result order)
  else inr (error_result (text r)).

Definition _execute_gmgn_order (data : pyval) : M pyval :=
  try_except
    (balance <- _get_gmgn_balance ;;
     size <- lift (position_size balance) ;;
     order <- lift (order_payload data size) ;;
     req <- lift (order_request order) ;;
     response <- send req ;;
     lift (order_outcome response))
    (fun e => ret (error_result (Py.exn_str e))).

(** *** The workflow *)

Definition analyze_and_trade (pair_address : string) : M pyval :=
  try_except
    (pair_data <- _get_dexscreener_data pair_address ;;
     if negb (Py.truthy pair_data) then ret (error_result "Data fetch failed")
     else
       security_check <- _security_analysis pair_data ;;
       is_approved <- lift (Py.subscript security_check "approved") ;;
       if negb (Py.truthy is_approved) then ret security_check
       else _execute_gmgn_order pair_data)
    (fun e => ret (error_result (Py.exn_str e))).

End CryptoTrader.

(** ** Concrete runs

    A configuration, a pair snapshot and a scripted outside world, used
    to evaluate the workflow on explicit inputs. *)

Module Scenario.

(** Token [0xabc] blacklisted, audit minimum 70, and the given
    position-size percentage. *)
Definition config_with (position_size_pct : pyval) : pyval :=
  VDict [
    ("blacklists", VDict [("tokens", VList [VStr "0xabc"]);
                          ("developers", VList [VStr "0xdev"])]);
    ("rugcheck", VDict [("endpoint", VStr "https://rugcheck.example");
                        ("min_score", VInt 70)]);
    ("gmgn", VDict [("endpoint", VStr "https://gmgn.example");
                    ("api_key", VStr "secret")]);
    ("trading", VDict [("position_size_pct", position_size_pct);
                       ("leverage", VInt 1)]);
    ("risk", VDict [("stop_loss_pct", VInt 5); ("take_profit_pct", VInt 10)]) ].

Definition config : pyval := config_with (VStr "0.1").

Definition snapshot (pair_address : string) : pyval :=
  VDict [("pairAddress", VStr pair_address);
         ("baseToken", VDict [("address", VStr "0xbase")]);
         ("quoteToken", VDict [("address", VStr "0xquote")]);
         ("priceUsd", VStr "1.5")].

Definition answer (status : Z) (body : pyval) : res response :=
  inr (mkResponse status (Py.repr body) (inr body)).

(** What each of the three services does in a run. *)
Record world : Type := mkWorld {
  dexscreener : res response;
  rugcheck : res response;
  balance : res response;
  orders : res response
}.

Definition session (w : world) : Session :=
  fun _ req =>
    match req with
    | GET url _ _ =>
        if String.prefix "https://api.dexscreener.com/" url then dexscreener w
        else if String.prefix "https://rugcheck.example/" url then rugcheck w
        else balance w
    | POST _ _ _ _ => orders w
    end.

Definition audit (status : string) (score : Z) : pyval :=
  VDict [("auditStatus", VStr status); ("auditScore", VInt score)].

Definition confirmation : pyval :=
  VDict [("orderId", VInt 7); ("state", VStr "created")].

Definition timeout : exn := RequestError "Read timed out.".

(** Every service answers well: the pair [pair_address] is listed,
    the audit is GOOD with the given score, 100 is available, and the
    venue creates the order. *)
Definition healthy (pair_address : string) (score : Z) : world :=
  {| dexscreener := answer 200 (snapshot pair_address);
     rugcheck := answer 200 (audit "GOOD" score);
     balance := answer 200 (VDict [("available", VStr "100")]);
     orders := answer 201 confirmation |}.

Definition dex_request (pair_address : string) : request :=
  GET ("https://api.dexscreener.com/latest/dex/pairs/" ++ pair_address) [] 10.

Definition audit_request : request :=
  GET "https://rugcheck.example/audit/0xbase" [] 10.

Definition balance_request : request :=
  GET "https://gmgn.example/account/balance" [("X-API-KEY", VStr "secret")] 5.

Definition order_with (amount : string) : pyval :=
  VDict [("pair", VStr "0xDEF"); ("baseToken", VStr "0xbase");
         ("quoteToken", VStr "0xquote"); ("amount", VStr amount);
         ("price", VStr "1.5"); ("side", VStr "BUY");
         ("leverage", VInt 1); ("stopLoss", VInt 5); ("takeProfit", VInt 10)].

Definition post_request (amount : string) : request :=
  POST "https://gmgn.example/orders" [("X-API-KEY", VStr "secret")]
       (order_with amount) 10.

End Scenario.

(** ** Vocabulary of the statements *)

(** [passes_through data cs tr tr']: run in order from the trace [tr],
    every check of [cs] returned a verdict that passed, and the trace
    became [tr']. *)
Inductive passes_through (data : pyval) :
  list (pyval -> M pyval) -> trace -> trace -> Prop :=
| passes_nil tr : passes_through data [] tr tr
| passes_cons check rest tr v p tr1 tr2 :
    check data tr = (inr v, tr1) ->
    Py.subscript v "passed" = inr p ->
    Py.truthy p = true ->
    passes_through data rest tr1 tr2 ->
    passes_through data (check :: rest) tr tr2.

(** [first_failure data cs tr v tr']: some check of [cs] returned the
    verdict [v] that did not pass, every check before it passed, and
    [tr'] is the trace as that check left it. *)
Definition first_failure (data : pyval) (cs : list (pyval -> M pyval))
  (tr : trace) (v : pyval) (tr' : trace) : Prop :=
  exists before check after tr0 p,
    cs = (before ++ check :: after)%list /\
    passes_through data before tr tr0 /\
    check data tr0 = (inr v, tr') /\
    Py.subscript v "passed" = inr p /\
    Py.truthy p = false.

(** How the answer to the one order submission reads as a result: a
    transport failure and an undecodable body give an error carrying the
    failure's description, the status 201 with a decodable body gives a
    success carrying that body, any other status an error carrying the
    response text. *)
Definition venue_outcome (answer : res response) : pyval :=
  match answer with
  | inl e => error_result (Py.exn_str e)
  | inr r =>
      if status_code r =? 201 then
        match json r with
        | inr confirmation => success_result confirmation
        | inl e => error_result (Py.exn_str e)
        end
      else error_result (text r)
  end.

(** A decimal as the [decimal] module builds them: the coefficient of a
    finite number and the payload of a NaN are not negative. *)
Definition decimal_well_formed (d : Dec.decimal) : Prop :=
  match d with
  | Dec.Fin _ c _ => 0 <= c
  | Dec.Inf _ => True
  | Dec.NaN _ _ p => 0 <= p
  end.

(** [s.isascii()]: every character of [s] is below 128.  On these
    strings the byte-wise [Py.lower_string] is Python's [str.lower()];
    outside them [str.lower()] follows the Unicode case mapping, which
    the model does not have. *)
Definition is_ascii (s : string) : bool :=
  forallb (fun c => (N_of_ascii c <? 128)%N) (list_ascii_of_string s).

(** * Properties *)

(** ** Decimal arithmetic *)

Module DecFacts.
Import Dec.

Lemma ndigits_fuel_spec (fuel : nat) :
  forall c, 0 < c -> c < 10 ^ (Z.of_nat fuel + 1) ->
  10 ^ (ndigits_fuel fuel c - 1) <= c < 10 ^ ndigits_fuel fuel c /\
  1 <= ndigits_fuel fuel c.
Proof.
  induction fuel as [|f IH]; intros c Hpos Hlt.
  - simpl in *. change (10 ^ 1) with 10 in Hlt. change (10 ^ (1 - 1)) with 1.
    change (10 ^ 1) with 10. lia.
  - cbn [ndigits_fuel]. destruct (Z.ltb_spec c 10) as [Hs|Hb].
    + change (10 ^ (1 - 1)) with 1. change (10 ^ 1) with 10. lia.
    + assert (Hq : 0 < c / 10) by (apply Z.div_str_pos; lia).
      assert (Hql : c / 10 < 10 ^ (Z.of_nat f + 1)).
      { apply Z.div_lt_upper_bound; [lia|].
        replace (Z.of_nat (S f) + 1) with (Z.succ (Z.of_nat f + 1)) in Hlt by lia.
        rewrite Z.pow_succ_r in Hlt by lia. exact Hlt. }
      destruct (IH (c / 10) Hq Hql) as [[Hlo Hhi] Hn].
      set (n := ndigits_fuel f (c / 10)) in *.
      replace (1 + n - 1) with (Z.succ (n - 1)) by lia.
      replace (1 + n) with (Z.succ n) by lia.
      rewrite !Z.pow_succ_r by lia.
      pose proof (Z.div_mod c 10 ltac:(lia)) as Hdm.
      pose proof (Z.mod_pos_bound c 10 ltac:(lia)) as Hm.
      lia.
Qed.

(** A positive coefficient of [n] digits lies in [[10^(n-1), 10^n)]. *)
Lemma ndigits_spec c :
  0 < c -> 10 ^ (ndigits c - 1) <= c < 10 ^ ndigits c /\ 1 <= ndigits c.
Proof.
  intros Hpos. unfold ndigits. apply ndigits_fuel_spec; [exact Hpos|].
  rewrite Z2Nat.id by apply Z.log2_nonneg.
  destruct (Z.log2_spec c Hpos) as [_ Hlt].
  eapply Z.lt_le_trans; [exact Hlt|].
  replace (Z.succ (Z.log2 c)) with (Z.log2 c + 1) by lia.
  apply Z.pow_le_mono_l. pose proof (Z.log2_nonneg c). lia.
Qed.

Lemma ndigits_unique c n :
  10 ^ (n - 1) <= c < 10 ^ n -> 1 <= n -> ndigits c = n.
Proof.
  intros [Hlo Hhi] Hn.
  assert (Hpos : 0 < c).
  { eapply Z.lt_le_trans; [|exact Hlo]. apply Z.pow_pos_nonneg; lia. }
  destruct (ndigits_spec c Hpos) as [[Hlo' Hhi'] Hn'].
  destruct (Z.lt_trichotomy (ndigits c) n) as [H|[H|H]]; [|exact H|].
  - exfalso.
    assert (10 ^ ndigits c <= 10 ^ (n - 1)) by (apply Z.pow_le_mono_r; lia).
    lia.
  - exfalso.
    assert (10 ^ n <= 10 ^ (ndigits c - 1)) by (apply Z.pow_le_mono_r; lia).
    lia.
Qed.

Lemma ndigits_le_iff c n :
  0 < c -> 0 <= n -> (ndigits c <= n <-> c < 10 ^ n).
Proof.
  intros Hpos Hn. destruct (ndigits_spec c Hpos) as [[Hlo Hhi] H1]. split; intros H.
  - eapply Z.lt_le_trans; [exact Hhi|]. apply Z.pow_le_mono_r; lia.
  - destruct (Z.le_gt_cases (ndigits c) n) as [|Hgt]; [assumption|exfalso].
    assert (10 ^ n <= 10 ^ (ndigits c - 1)) by (apply Z.pow_le_mono_r; lia).
    lia.
Qed.

Lemma pow10_pos k : 0 <= k -> 0 < 10 ^ k.
Proof. intros. apply Z.pow_pos_nonneg; lia. Qed.

Lemma pow10_split a b : 0 <= a -> 0 <= b -> 10 ^ (a + b) = 10 ^ a * 10 ^ b.
Proof. intros. apply Z.pow_add_r; assumption. Qed.

(** A product that fits the precision is returned as it is. *)
Lemma fix_ctx_exact neg X e :
  0 < X -> ndigits X <= prec ->
  Emin <= ndigits X + e - 1 -> ndigits X + e <= Emax ->
  fix_ctx neg X e = inr (Fin neg X e).
Proof.
  intros Hpos Hfit Hlo Hhi. unfold fix_ctx.
  destruct (Z.eqb_spec X 0) as [->|_]; [lia|].
  unfold Etop, Etiny, prec, Emax, Emin in *.
  destruct (Z.gtb_spec (ndigits X + e - 18) (999999 - 18 + 1)); [lia|].
  rewrite Z.max_l by lia.
  destruct (Z.ltb_spec e (ndigits X + e - 18)); [lia|reflexivity].
Qed.

(** A longer product loses its last [k] digits to half-even rounding:
    counted in units of [10^e], the result is the multiple of [10^k]
    just below or just above [X], whichever is nearer. *)
Lemma fix_ctx_rounded neg X e :
  0 < X -> prec < ndigits X ->
  Emin <= ndigits X + e - 1 -> ndigits X + e <= Emax ->
  let k := ndigits X - prec in
  let p := 10 ^ k in
  exists cs es,
    fix_ctx neg X e = inr (Fin neg cs es) /\
    e + k <= es <= e + k + 1 /\ 10 ^ 17 <= cs < 10 ^ 18 /\
    ((cs * 10 ^ (es - e) = X / p * p /\ 2 * (X mod p) <= p) \/
     (cs * 10 ^ (es - e) = (X / p + 1) * p /\ p <= 2 * (X mod p))).
Proof.
  intros Hpos Hbig Hlo Hhi k p.
  destruct (ndigits_spec X Hpos) as [[HXlo HXhi] _].
  assert (Hk : 0 < k) by (unfold k; lia).
  assert (Hp : 0 < p) by (apply pow10_pos; lia).
  assert (Hn1 : 10 ^ (ndigits X - 1) = 10 ^ 17 * p).
  { unfold p. rewrite <- pow10_split by lia. f_equal. unfold k, prec. lia. }
  assert (Hn : 10 ^ ndigits X = 10 ^ 18 * p).
  { unfold p. rewrite <- pow10_split by lia. f_equal. unfold k, prec. lia. }
  rewrite Hn1 in HXlo. rewrite Hn in HXhi.
  assert (Hqlo : 10 ^ 17 <= X / p).
  { apply Z.div_le_lower_bound; lia. }
  assert (Hqhi : X / p < 10 ^ 18).
  { apply Z.div_lt_upper_bound; lia. }
  pose proof (Z.div_mod X p ltac:(lia)) as Hdm.
  pose proof (Z.mod_pos_bound X p Hp) as Hr.
  unfold fix_ctx.
  destruct (Z.eqb_spec X 0) as [->|_]; [lia|].
  unfold Etop, Etiny, Emax, Emin in *. fold k.
  replace (ndigits X + e - prec) with (e + k) by (unfold k; lia).
  unfold prec in *.
  destruct (Z.gtb_spec (e + k) (999999 - 18 + 1)); [lia|].
  rewrite Z.max_l by lia.
  destruct (Z.ltb_spec e (e + k)); [|lia].
  unfold round_half_even. replace (e + k - e) with k by lia. fold p.
  set (q := X / p) in *. set (r := X mod p) in *.
  cbv beta iota zeta.
  destruct ((2 * r >? p) || (2 * r =? p) && Z.odd q) eqn:Hup.
  - assert (Hup' : p <= 2 * r).
    { apply orb_true_iff in Hup. destruct Hup as [H1|H1].
      - apply Z.gtb_lt in H1. lia.
      - apply andb_true_iff in H1. destruct H1 as [H1 _].
        apply Z.eqb_eq in H1. lia. }
    destruct (Z.gtb_spec (ndigits (q + 1)) 18) as [Hcarry|Hnocarry].
    + assert (Hq1 : q + 1 = 10 ^ 18).
      { destruct (Z.eq_dec (q + 1) (10 ^ 18)) as [|Hne]; [assumption|exfalso].
        assert (ndigits (q + 1) = 18) by (apply ndigits_unique; simpl; lia).
        lia. }
      destruct (Z.gtb_spec (e + k + 1) (999999 - 18 + 1)); [lia|].
      exists ((q + 1) / 10), (e + k + 1). rewrite Hq1.
      change (10 ^ 18 / 10) with (10 ^ 17).
      split; [reflexivity|]. split; [lia|]. split; [simpl; lia|]. right.
      split; [|exact Hup'].
      replace (e + k + 1 - e) with (1 + k) by lia.
      rewrite pow10_split by lia. fold p. change (10 ^ 1) with 10.
      change (10 ^ 18) with (10 ^ 17 * 10). ring.
    + destruct (Z.gtb_spec (e + k) (999999 - 18 + 1)); [lia|].
      exists (q + 1), (e + k).
      split; [reflexivity|]. split; [lia|].
      assert (q + 1 < 10 ^ 18).
      { apply (ndigits_le_iff (q + 1) 18); lia. }
      split; [lia|]. right. replace (e + k - e) with k by lia. fold p.
      split; [reflexivity|exact Hup'].
  - assert (Hdown : 2 * r <= p).
    { apply orb_false_iff in Hup. destruct Hup as [H1 _].
      destruct (Z.gtb_spec (2 * r) p); [discriminate|lia]. }
    destruct (Z.gtb_spec (e + k) (999999 - 18 + 1)); [lia|].
    exists q, (e + k).
    split; [reflexivity|]. split; [lia|]. split; [lia|]. left.
    replace (e + k - e) with k by lia. fold p.
    split; [reflexivity|exact Hdown].
Qed.

(** Finite decimals compare alike at every common reference exponent. *)
Lemma fin_leb_at m n c e n' c' e' :
  m <= e -> m <= e' ->
  (fin_leb (Fin n c e) (Fin n' c' e') = true <->
   scaled n c e m <= scaled n' c' e' m).
Proof.
  intros He He'. unfold fin_leb. rewrite Z.leb_le.
  set (m0 := Z.min e e').
  assert (Hm0 : m <= m0) by (unfold m0; lia).
  assert (Hs : forall b x y, m0 <= y ->
             scaled b x y m = scaled b x y m0 * 10 ^ (m0 - m)).
  { intros b x y Hy. unfold scaled.
    replace (y - m) with ((y - m0) + (m0 - m)) by lia.
    rewrite pow10_split by lia. ring. }
  rewrite (Hs n c e) by (unfold m0; lia).
  rewrite (Hs n' c' e') by (unfold m0; lia).
  pose proof (pow10_pos (m0 - m) ltac:(lia)) as Hp.
  split; intros H.
  - apply Z.mul_le_mono_nonneg_r; lia.
  - apply Z.mul_le_mono_pos_r in H; assumption.
Qed.

(** A positive finite decimal that is at most one has a coefficient of
    at most [10^(-exp)] and an exponent that is not positive. *)
Lemma at_most_one cp ep :
  0 < cp -> fin_leb (Fin false cp ep) one = true ->
  ep <= 0 /\ cp <= 10 ^ (- ep).
Proof.
  intros Hpos Hle. unfold one, fin_leb, scaled in Hle. apply Z.leb_le in Hle.
  destruct (Z.le_gt_cases ep 0) as [Hep|Hep].
  - split; [exact Hep|].
    rewrite Z.min_l in Hle by lia.
    replace (ep - ep) with 0 in Hle by lia.
    replace (0 - ep) with (- ep) in Hle by lia.
    change (10 ^ 0) with 1 in Hle. lia.
  - exfalso. rewrite Z.min_r in Hle by lia.
    replace (0 - 0) with 0 in Hle by lia. change (10 ^ 0) with 1 in Hle.
    replace (ep - 0) with ep in Hle by lia.
    assert (10 ^ 1 <= 10 ^ ep) by (apply Z.pow_le_mono_r; lia).
    change (10 ^ 1) with 10 in *. nia.
Qed.

(** The product of two positive finite decimals in the normal range
    of the context is the exact product rounded half-even to [prec]
    digits.  Counted in units of [10^(eb+ep)], the result differs from
    the exact product by at most half a unit of its last digit; it is
    the exact product when that has at most [prec] digits. *)
Lemma mul_rounds_product cb eb cp ep :
  0 < cb -> 0 < cp ->
  Emin <= ndigits (cb * cp) + (eb + ep) - 1 ->
  ndigits (cb * cp) + (eb + ep) <= Emax ->
  exists cs es,
    mul (Fin false cb eb) (Fin false cp ep) = inr (Fin false cs es) /\
    0 < cs /\ eb + ep <= es /\
    2 * Z.abs (cs * 10 ^ (es - (eb + ep)) - cb * cp) <= 10 ^ (es - (eb + ep)) /\
    (ndigits (cb * cp) <= prec -> cs = cb * cp /\ es = eb + ep) /\
    (prec < ndigits (cb * cp) -> 10 ^ 17 <= cs < 10 ^ 18).
Proof.
  intros Hcb Hcp Hlo Hhi. cbn [mul xorb].
  assert (HX : 0 < cb * cp) by nia.
  destruct (Z.le_gt_cases (ndigits (cb * cp)) prec) as [Hfit|Hbig].
  - rewrite fix_ctx_exact by assumption.
    exists (cb * cp), (eb + ep). split; [reflexivity|].
    split; [exact HX|]. split; [lia|].
    replace (eb + ep - (eb + ep)) with 0 by lia. change (10 ^ 0) with 1.
    split; [lia|]. split; [auto|]. intros; lia.
  - destruct (fix_ctx_rounded false (cb * cp) (eb + ep) HX Hbig Hlo Hhi)
      as (cs & es & Hfix & Hes & Hcs & Hv).
    exists cs, es. split; [exact Hfix|].
    assert (H17 : 0 < 10 ^ 17) by (apply pow10_pos; lia).
    set (k := ndigits (cb * cp) - prec) in *. set (p := 10 ^ k) in *.
    assert (Hk : 0 < k) by (unfold k; lia).
    split; [lia|]. split; [lia|].
    assert (Hp : 0 < p) by (apply pow10_pos; lia).
    pose proof (Z.div_mod (cb * cp) p ltac:(lia)) as Hdm.
    pose proof (Z.mod_pos_bound (cb * cp) p Hp) as Hr.
    assert (Hpe : p <= 10 ^ (es - (eb + ep))).
    { unfold p. apply Z.pow_le_mono_r; lia. }
    split; [|split; [intros; lia|intros; exact Hcs]].
    destruct Hv as [[Hv Hd]|[Hv Hu]]; rewrite Hv; lia.
Qed.

(** With a percentage in (0, 1] and a balance that the precision
    holds, the rounded product is positive and does not exceed the
    balance. *)
Lemma mul_within_balance cb eb cp ep :
  0 < cb -> ndigits cb <= prec ->
  0 < cp -> fin_leb (Fin false cp ep) one = true ->
  Emin <= ndigits (cb * cp) + (eb + ep) - 1 ->
  ndigits (cb * cp) + (eb + ep) <= Emax ->
  exists cs es,
    mul (Fin false cb eb) (Fin false cp ep) = inr (Fin false cs es) /\
    0 < cs /\
    fin_leb (Fin false cs es) (Fin false cb eb) = true.
Proof.
  intros Hcb Hdig Hcp Hone Hlo Hhi. cbn [mul xorb].
  destruct (at_most_one cp ep Hcp Hone) as [Hep Hcp10].
  assert (HX : 0 < cb * cp) by nia.
  assert (HP : 0 < 10 ^ (- ep)) by (apply pow10_pos; lia).
  assert (HXB : cb * cp <= cb * 10 ^ (- ep)) by nia.
  destruct (Z.le_gt_cases (ndigits (cb * cp)) prec) as [Hfit|Hbig].
  - rewrite fix_ctx_exact by assumption.
    exists (cb * cp), (eb + ep). split; [reflexivity|]. split; [exact HX|].
    apply (fin_leb_at (eb + ep)); [lia|lia|]. unfold scaled.
    replace (eb + ep - (eb + ep)) with 0 by lia. change (10 ^ 0) with 1.
    replace (eb - (eb + ep)) with (- ep) by lia. lia.
  - destruct (fix_ctx_rounded false (cb * cp) (eb + ep) HX Hbig Hlo Hhi)
      as (cs & es & Hfix & Hes & Hcs & Hv).
    exists cs, es. split; [exact Hfix|].
    assert (H17 : 0 < 10 ^ 17) by (apply pow10_pos; lia).
    set (k := ndigits (cb * cp) - prec) in *. set (p := 10 ^ k) in *.
    assert (Hk : 0 < k) by (unfold k; lia).
    split; [lia|].
    apply (fin_leb_at (eb + ep)); [lia|lia|]. unfold scaled.
    replace (eb - (eb + ep)) with (- ep) by lia.
    assert (Hp : 0 < p) by (apply pow10_pos; lia).
    pose proof (Z.div_mod (cb * cp) p ltac:(lia)) as Hdm.
    pose proof (Z.mod_pos_bound (cb * cp) p Hp) as Hr.
    set (q := cb * cp / p) in *. set (r := (cb * cp) mod p) in *.
    destruct Hv as [[Hv Hd]|[Hv Hu]]; rewrite Hv; [nia|].
    (* rounded up: the balance is a multiple of [p] above the product *)
    assert (Hcb18 : cb < 10 ^ 18).
    { apply (ndigits_le_iff cb 18); unfold prec in *; lia. }
    destruct (ndigits_spec (cb * cp) HX) as [[HXlo _] _].
    assert (HkP : k <= - ep).
    { assert (Hlt : 10 ^ (ndigits (cb * cp) - 1) < 10 ^ (18 + - ep)).
      { rewrite (pow10_split 18 (- ep)) by lia. nia. }
      apply Z.pow_lt_mono_r_iff in Hlt; [|lia|lia].
      unfold k, prec. lia. }
    assert (HB : 10 ^ (- ep) = 10 ^ (- ep - k) * p).
    { unfold p. rewrite <- pow10_split by lia. f_equal. lia. }
    rewrite HB in *.
    set (M := cb * 10 ^ (- ep - k)).
    assert (HM : cb * (10 ^ (- ep - k) * p) = M * p) by (unfold M; ring).
    rewrite HM in *.
    assert (q < M) by nia.
    nia.
Qed.

(** The rounding of a longer product is to nearest, and a tie goes to
    the even neighbour.  With [p] the weight of the last digit kept,
    counted in units of [10^e], the result is a multiple of [p] at most
    half of [p] away from [X]; when [X] lies exactly half way between
    two multiples of [p], the coefficient kept is even. *)
Lemma fix_ctx_half_even neg X e :
  0 < X -> prec < ndigits X ->
  Emin <= ndigits X + e - 1 -> ndigits X + e <= Emax ->
  let p := 10 ^ (ndigits X - prec) in
  exists cs es,
    fix_ctx neg X e = inr (Fin neg cs es) /\
    (cs * 10 ^ (es - e)) mod p = 0 /\
    2 * Z.abs (cs * 10 ^ (es - e) - X) <= p /\
    (2 * Z.abs (cs * 10 ^ (es - e) - X) = p -> Z.even cs = true).
Proof.
  intros Hpos Hbig Hlo Hhi. set (k := ndigits X - prec). intros p.
  destruct (ndigits_spec X Hpos) as [[HXlo HXhi] _].
  assert (Hk : 0 < k) by (unfold k; lia).
  assert (Hp : 0 < p) by (apply pow10_pos; lia).
  assert (Hn1 : 10 ^ (ndigits X - 1) = 10 ^ 17 * p).
  { unfold p. rewrite <- pow10_split by lia. f_equal. unfold k, prec. lia. }
  assert (Hn : 10 ^ ndigits X = 10 ^ 18 * p).
  { unfold p. rewrite <- pow10_split by lia. f_equal. unfold k, prec. lia. }
  rewrite Hn1 in HXlo. rewrite Hn in HXhi.
  assert (Hqlo : 10 ^ 17 <= X / p) by (apply Z.div_le_lower_bound; lia).
  assert (Hqhi : X / p < 10 ^ 18) by (apply Z.div_lt_upper_bound; lia).
  pose proof (Z.div_mod X p ltac:(lia)) as Hdm.
  pose proof (Z.mod_pos_bound X p Hp) as Hr.
  unfold fix_ctx.
  destruct (Z.eqb_spec X 0) as [->|_]; [lia|].
  unfold Etop, Etiny, Emax, Emin in *. fold k.
  replace (ndigits X + e - prec) with (e + k) by (unfold k; lia).
  unfold prec in *.
  destruct (Z.gtb_spec (e + k) (999999 - 18 + 1)); [lia|].
  rewrite Z.max_l by lia.
  destruct (Z.ltb_spec e (e + k)); [|lia].
  unfold round_half_even. replace (e + k - e) with k by lia. fold p.
  set (q := X / p) in *. set (r := X mod p) in *.
  cbv beta iota zeta.
  destruct (Z.gtb_spec (2 * r) p) as [Hgt|Hle]; cbn [orb].
  - (* above the middle: up *)
    destruct (Z.gtb_spec (ndigits (q + 1)) 18) as [Hcarry|Hnocarry].
    + assert (Hq1 : q + 1 = 10 ^ 18).
      { destruct (Z.eq_dec (q + 1) (10 ^ 18)) as [|Hne]; [assumption|exfalso].
        assert (ndigits (q + 1) = 18) by (apply ndigits_unique; simpl; lia).
        lia. }
      destruct (Z.gtb_spec (e + k + 1) (999999 - 18 + 1)); [lia|].
      exists ((q + 1) / 10), (e + k + 1). rewrite Hq1.
      change (10 ^ 18 / 10) with (10 ^ 17).
      split; [reflexivity|].
      replace (e + k + 1 - e) with (1 + k) by lia.
      rewrite pow10_split by lia. fold p. change (10 ^ 1) with 10.
      replace (10 ^ 17 * (10 * p)) with (10 ^ 18 * p) by (change (10 ^ 18) with (10 ^ 17 * 10); ring).
      split; [apply Z.mod_mul; lia|]. split; [lia|]. intros _. reflexivity.
    + destruct (Z.gtb_spec (e + k) (999999 - 18 + 1)); [lia|].
      exists (q + 1), (e + k).
      split; [reflexivity|]. replace (e + k - e) with k by lia. fold p.
      split; [apply Z.mod_mul; lia|]. split; lia.
  - destruct (Z.eqb_spec (2 * r) p) as [Htie|Hne]; cbn [andb].
    + (* half way: the parity of the quotient decides *)
      destruct (Z.odd q) eqn:Hodd.
      * destruct (Z.gtb_spec (ndigits (q + 1)) 18) as [Hcarry|Hnocarry].
        -- assert (Hq1 : q + 1 = 10 ^ 18).
           { destruct (Z.eq_dec (q + 1) (10 ^ 18)) as [|Hne]; [assumption|exfalso].
             assert (ndigits (q + 1) = 18) by (apply ndigits_unique; simpl; lia).
             lia. }
           destruct (Z.gtb_spec (e + k + 1) (999999 - 18 + 1)); [lia|].
           exists ((q + 1) / 10), (e + k + 1). rewrite Hq1.
           change (10 ^ 18 / 10) with (10 ^ 17).
           split; [reflexivity|].
           replace (e + k + 1 - e) with (1 + k) by lia.
           rewrite pow10_split by lia. fold p. change (10 ^ 1) with 10.
           replace (10 ^ 17 * (10 * p)) with (10 ^ 18 * p) by (change (10 ^ 18) with (10 ^ 17 * 10); ring).
           split; [apply Z.mod_mul; lia|]. split; [lia|]. intros _. reflexivity.
        -- destruct (Z.gtb_spec (e + k) (999999 - 18 + 1)); [lia|].
           exists (q + 1), (e + k).
           split; [reflexivity|]. replace (e + k - e) with k by lia. fold p.
           split; [apply Z.mod_mul; lia|]. split; [lia|]. intros _.
           replace (q + 1) with (Z.succ q) by lia. rewrite Z.even_succ. exact Hodd.
      * destruct (Z.gtb_spec (e + k) (999999 - 18 + 1)); [lia|].
        exists q, (e + k).
        split; [reflexivity|]. replace (e + k - e) with k by lia. fold p.
        split; [apply Z.mod_mul; lia|]. split; [lia|]. intros _.
        rewrite <- Z.negb_odd, Hodd. reflexivity.
    + (* below the middle: down *)
      destruct (Z.gtb_spec (e + k) (999999 - 18 + 1)); [lia|].
      exists q, (e + k).
      split; [reflexivity|]. replace (e + k - e) with k by lia. fold p.
      split; [apply Z.mod_mul; lia|]. split; lia.
Qed.

(** The same for the product of two positive finite decimals. *)
Lemma mul_half_even cb eb cp ep :
  0 < cb -> 0 < cp -> prec < ndigits (cb * cp) ->
  Emin <= ndigits (cb * cp) + (eb + ep) - 1 ->
  ndigits (cb * cp) + (eb + ep) <= Emax ->
  let p := 10 ^ (ndigits (cb * cp) - prec) in
  exists cs es,
    mul (Fin false cb eb) (Fin false cp ep) = inr (Fin false cs es) /\
    (cs * 10 ^ (es - (eb + ep))) mod p = 0 /\
    2 * Z.abs (cs * 10 ^ (es - (eb + ep)) - cb * cp) <= p /\
    (2 * Z.abs (cs * 10 ^ (es - (eb + ep)) - cb * cp) = p -> Z.even cs = true).
Proof.
  intros Hcb Hcp Hbig Hlo Hhi. cbn [mul xorb].
  apply fix_ctx_half_even; try assumption. nia.
Qed.

End DecFacts.

(** ** The checks and the utility methods *)

Ltac case_match :=
  match goal with
  | |- context [match ?x with _ => _ end] => destruct x eqn:?
  | H : context [match ?x with _ => _ end] |- _ => destruct x eqn:?
  end.

Ltac unfold_monad :=
  unfold bind, lift, ret, try_except, send, res_bind in *.

Lemma posts_app (tr tr' : trace) :
  posts (tr ++ tr')%list = (posts tr ++ posts tr')%list.
Proof. apply filter_app. Qed.

Lemma posts_get (tr : trace) url headers timeout :
  posts (tr ++ [GET url headers timeout])%list = posts tr.
Proof. rewrite posts_app. simpl. apply app_nil_r. Qed.

(** The blacklist check returns one of its three verdicts, or raises. *)
Lemma _check_blacklists_cases config data v :
  _check_blacklists config data = inr v ->
  v = failed "Token blacklisted" \/ v = failed "Developer blacklisted" \/ v = passed.
Proof.
  unfold _check_blacklists, res_bind. intros H.
  repeat case_match; inversion H; subst; auto.
Qed.

(** The audit check never raises, returns a verdict, and issues at most
    its one GET request. *)
Lemma _check_rug_pull_risk_cases config session data tr :
  exists v tr',
    _check_rug_pull_risk config session data tr = (inr v, tr') /\
    (v = passed \/ exists reason, v = failed reason) /\
    (tr' = tr \/ exists url, tr' = (tr ++ [GET url [] 10])%list).
Proof.
  unfold _check_rug_pull_risk. unfold_monad.
  repeat case_match;
    repeat match goal with
           | H : (_, _) = (_, _) |- _ => inversion H; subst; clear H
           end;
    try discriminate;
    eexists; eexists; (split; [reflexivity|]); split; eauto.
Qed.

Lemma eq_str_inv v t : Py.eq v (VStr t) = true -> v = VStr t.
Proof.
  destruct v; simpl; try discriminate.
  intros H. apply String.eqb_eq in H. subst. reflexivity.
Qed.

(** When the audit check passes, the provider answered with a dictionary
    whose status is GOOD and whose score is not below the minimum. *)
Lemma _check_rug_pull_risk_passed config session data tr tr' :
  _check_rug_pull_risk config session data tr = (inr passed, tr') ->
  exists url r audit score min_score,
    session tr (GET url [] 10) = inr r /\ json r = inr audit /\
    tr' = (tr ++ [GET url [] 10])%list /\
    Py.get audit "auditStatus" VNone = inr (VStr "GOOD") /\
    Py.get audit "auditScore" (VInt 0) = inr score /\
    config_at config "rugcheck" "min_score" = inr min_score /\
    Py.lt score min_score = inr false.
Proof.
  unfold _check_rug_pull_risk. unfold_monad. intros H.
  repeat case_match;
    repeat match goal with
           | H : (_, _) = (_, _) |- _ => inversion H; subst; clear H
           end;
    try discriminate.
  match goal with
  | H : negb (Py.eq _ _) = false |- _ =>
      apply negb_false_iff in H; apply eq_str_inv in H
  end.
  subst. do 5 eexists. repeat split; eauto.
Qed.

(** A provider that cannot be reached, or whose body does not decode,
    gives the verdict "Audit verification error". *)
Lemma _check_rug_pull_risk_provider_error config session data tr endpoint base address :
  config_at config "rugcheck" "endpoint" = inr endpoint ->
  Py.subscript data "baseToken" = inr base ->
  Py.subscript base "address" = inr address ->
  let req := GET (Py.str endpoint ++ "/audit/" ++ Py.str address) [] 10 in
  (exists e, session tr req = inl e) \/
  (exists r e, session tr req = inr r /\ json r = inl e) ->
  _check_rug_pull_risk config session data tr
    = (inr (failed "Audit verification error"), (tr ++ [req])%list).
Proof.
  intros Hep Hbase Haddr req Herr.
  unfold _check_rug_pull_risk. unfold_monad. rewrite Hep, Hbase, Haddr. fold req.
  destruct Herr as [[e ->] | (r & e & -> & ->)]; reflexivity.
Qed.

(** A GOOD audit whose score is below the minimum gives the verdict
    that shows the score. *)
Lemma _check_rug_pull_risk_low_score
  config session data tr endpoint base address r fields score min_score :
  config_at config "rugcheck" "endpoint" = inr endpoint ->
  Py.subscript data "baseToken" = inr base ->
  Py.subscript base "address" = inr address ->
  let req := GET (Py.str endpoint ++ "/audit/" ++ Py.str address) [] 10 in
  session tr req = inr r ->
  json r = inr (VDict fields) ->
  Py.lookup "auditStatus" fields = Some (VStr "GOOD") ->
  Py.lookup "auditScore" fields = Some score ->
  config_at config "rugcheck" "min_score" = inr min_score ->
  Py.lt score min_score = inr true ->
  _check_rug_pull_risk config session data tr
    = (inr (failed ("Low audit score: " ++ Py.str score)), (tr ++ [req])%list).
Proof.
  intros Hep Hbase Haddr req Hr Hjson Hstatus Hscore Hmin Hlt.
  unfold _check_rug_pull_risk. unfold_monad. rewrite Hep, Hbase, Haddr. fold req.
  rewrite Hr, Hjson. cbn [Py.get Py.subscript]. rewrite Hstatus. cbn [Py.eq Py.str_eq].
  rewrite String.eqb_refl. cbn [negb]. rewrite Hscore, Hmin, Hlt. reflexivity.
Qed.

Lemma _get_dexscreener_data_spec session pair_address tr :
  let req := GET ("https://api.dexscreener.com/latest/dex/pairs/" ++ pair_address) [] 10 in
  _get_dexscreener_data session pair_address tr =
    (inr match session tr req with
         | inr r => match json r with inr j => j | inl _ => VNone end
         | inl _ => VNone
         end, (tr ++ [req])%list).
Proof.
  unfold _get_dexscreener_data. unfold_monad. cbv zeta.
  destruct (session tr _) as [e|r]; [reflexivity|].
  destruct (json r); reflexivity.
Qed.

Lemma read_balance_posts config session tr result tr' :
  read_balance config session tr = (result, tr') -> posts tr' = posts tr.
Proof.
  unfold read_balance. unfold_monad. intros H.
  repeat case_match;
    repeat match goal with
           | H : (_, _) = (_, _) |- _ => inversion H; subst; clear H
           end;
    first [reflexivity | apply posts_get].
Qed.

(** The balance read never raises and submits nothing. *)
Lemma _get_gmgn_balance_cases config session tr :
  exists balance tr',
    _get_gmgn_balance config session tr = (inr balance, tr') /\
    posts tr' = posts tr.
Proof.
  unfold _get_gmgn_balance, try_except.
  destruct (read_balance config session tr) as [[e|b] tr'] eqn:H;
    apply read_balance_posts in H; unfold ret; eauto.
Qed.

(** *** The loop over the checks *)

Lemma run_checks_first_failure data before check after tr tr0 v p tr' :
  passes_through data before tr tr0 ->
  check data tr0 = (inr v, tr') ->
  Py.subscript v "passed" = inr p ->
  Py.truthy p = false ->
  run_checks (before ++ check :: after) data tr = (inr v, tr').
Proof.
  intros Hpass Hcheck Hsub Hfalse.
  induction Hpass as [tr|c rest tr v0 p0 tr1 tr2 Hc Hs Ht _ IH].
  - simpl. unfold_monad. rewrite Hcheck, Hsub, Hfalse. reflexivity.
  - simpl. unfold_monad. rewrite Hc, Hs, Ht. simpl. apply IH; assumption.
Qed.

Lemma run_checks_all_pass data cs tr tr' :
  passes_through data cs tr tr' ->
  run_checks cs data tr = (inr approved, tr').
Proof.
  induction 1 as [tr|c rest tr v0 p0 tr1 tr2 Hc Hs Ht _ IH].
  - reflexivity.
  - simpl. unfold_monad. rewrite Hc, Hs, Ht. simpl. exact IH.
Qed.

Lemma run_checks_returns data cs :
  forall tr r tr',
    run_checks cs data tr = (inr r, tr') ->
    first_failure data cs tr r tr' \/
    (r = approved /\ passes_through data cs tr tr').
Proof.
  induction cs as [|c rest IH]; intros tr r tr' H.
  - simpl in H. unfold ret in H. inversion H; subst.
    right. split; [reflexivity|constructor].
  - simpl in H. unfold_monad.
    destruct (c data tr) as [[e|v] tr1] eqn:Hc; [discriminate|].
    destruct (Py.subscript v "passed") as [e|p] eqn:Hs; [discriminate|].
    destruct (Py.truthy p) eqn:Ht; simpl in H.
    + destruct (IH _ _ _ H) as [Hff | [Heq Hall]]; [|subst r].
      { left. destruct Hff as (before & check & after & tr0 & p' & Hcs & Hp & Hrest).
        subst rest. exists (c :: before), check, after, tr0, p'.
        split; [reflexivity|]. split; [|exact Hrest].
        econstructor; eassumption. }
      right. split; [reflexivity|]. econstructor; eassumption.
    + inversion H; subst. left.
      exists [], c, rest, tr, p. repeat split; try assumption. constructor.
Qed.

(** *** The engine and the workflow as the script has them *)

(** With the three unfinished checks in the list the engine never
    approves: it raises or returns a failing verdict, and submits
    nothing. *)
Lemma _security_analysis_cases config session data tr :
  exists tr',
    posts tr' = posts tr /\
    ((exists e, _security_analysis config session data tr = (inl e, tr')) \/
     (exists reason, _security_analysis config session data tr = (inr (failed reason), tr'))).
Proof.
  unfold _security_analysis, checks. cbn [run_checks]. unfold_monad.
  destruct (_check_blacklists config data) as [e|v] eqn:Hb.
  - exists tr. split; [reflexivity|]. left. eauto.
  - destruct (_check_blacklists_cases _ _ _ Hb) as [-> | [-> | ->]].
    + exists tr. split; [reflexivity|]. right. eexists. reflexivity.
    + exists tr. split; [reflexivity|]. right. eexists. reflexivity.
    + cbn.
      destruct (_check_rug_pull_risk_cases config session data tr)
        as (v & tr' & Hr & Hv & Htr).
      exists tr'. split.
      { destruct Htr as [-> | [url ->]]; [reflexivity|apply posts_get]. }
      rewrite Hr. destruct Hv as [-> | [reason ->]]; cbn.
      * left. eauto.
      * right. eauto.
Qed.

(** Every run of the workflow ends in an error result and submits no
    order. *)
Lemma analyze_and_trade_always_error config session pair_address tr :
  exists message tr',
    analyze_and_trade config session pair_address tr = (inr (error_result message), tr') /\
    posts tr' = posts tr.
Proof.
  unfold analyze_and_trade. unfold try_except at 1. unfold bind at 1.
  rewrite _get_dexscreener_data_spec. cbv zeta.
  match goal with |- context [Py.truthy ?d] => generalize d; intros data end.
  destruct (Py.truthy data); cbn [negb].
  - unfold bind at 1.
    match goal with
    | |- context [_security_analysis config session data ?t] =>
        destruct (_security_analysis_cases config session data t)
          as (tr' & Hposts & [[e He] | [reason Hr]])
    end.
    + rewrite He. unfold ret.
      do 2 eexists. split; [reflexivity|].
      rewrite Hposts. apply posts_get.
    + rewrite Hr. cbn. unfold ret.
      do 2 eexists. split; [reflexivity|].
      rewrite Hposts. apply posts_get.
  - unfold ret. do 2 eexists. split; [reflexivity|apply posts_get].
Qed.

(** *** Execution of the order *)

Lemma order_request_post config order req :
  order_request config order = inr req ->
  exists url api_key, req = POST url [("X-API-KEY", api_key)] order 10.
Proof.
  unfold order_request, res_bind. intros H.
  repeat case_match; inversion H; subst; eauto.
Qed.

Lemma order_payload_amount config data size order :
  order_payload config data size = inr order ->
  Py.subscript order "amount" = inr (VStr (Dec.to_str size)).
Proof.
  unfold order_payload, res_bind. intros H.
  repeat case_match; inversion H; subst; reflexivity.
Qed.

(** Once the balance is read and the order and its request are built,
    the request is sent once and its answer decides the result. *)
Lemma _execute_gmgn_order_submits config session data tr balance tr1 size order req :
  _get_gmgn_balance config session tr = (inr balance, tr1) ->
  position_size config balance = inr size ->
  order_payload config data size = inr order ->
  order_request config order = inr req ->
  _execute_gmgn_order config session data tr
    = (inr (venue_outcome (session tr1 req)), (tr1 ++ [req])%list).
Proof.
  intros Hbal Hsize Horder Hreq.
  unfold _execute_gmgn_order. unfold try_except at 1. unfold bind at 1.
  rewrite Hbal. unfold_monad. rewrite Hsize, Horder, Hreq.
  unfold venue_outcome, order_outcome.
  destruct (session tr1 req) as [e|r]; [reflexivity|].
  destruct (status_code r =? 201); [|reflexivity].
  destruct (json r); reflexivity.
Qed.

(** Every call returns a result and submits at most one order. *)
Lemma _execute_gmgn_order_cases config session data tr :
  exists result tr',
    _execute_gmgn_order config session data tr = (inr result, tr') /\
    (posts tr' = posts tr \/
     exists req, is_post req = true /\ posts tr' = (posts tr ++ [req])%list).
Proof.
  destruct (_get_gmgn_balance_cases config session tr) as (balance & tr1 & Hbal & Hposts).
  destruct (position_size config balance) as [e|size] eqn:Hsize.
  { unfold _execute_gmgn_order. unfold try_except at 1. unfold bind at 1.
    rewrite Hbal. unfold_monad. rewrite Hsize. eauto. }
  destruct (order_payload config data size) as [e|order] eqn:Horder.
  { unfold _execute_gmgn_order. unfold try_except at 1. unfold bind at 1.
    rewrite Hbal. unfold_monad. rewrite Hsize, Horder. eauto. }
  destruct (order_request config order) as [e|req] eqn:Hreq.
  { unfold _execute_gmgn_order. unfold try_except at 1. unfold bind at 1.
    rewrite Hbal. unfold_monad. rewrite Hsize, Horder, Hreq. eauto. }
  rewrite (_execute_gmgn_order_submits _ _ _ _ _ _ _ _ _ Hbal Hsize Horder Hreq).
  do 2 eexists. split; [reflexivity|]. right. exists req.
  destruct (order_request_post _ _ _ Hreq) as (url & key & ->).
  split; [reflexivity|]. rewrite posts_app, Hposts. reflexivity.
Qed.

(** ** The claims *)

(** C1 (defect in the code).  A pair whose address is blacklisted is
    rejected by the blacklist check with the reason "Token blacklisted",
    and the engine returns that verdict; but [analyze_and_trade] then
    reads the key "approved", which a failing verdict does not have, and
    the [KeyError] is reported as an error result: the workflow answers
    Error, not Rejected. *)
Theorem C1_blacklisted_pair_is_reported_as_error :
  let session := Scenario.session (Scenario.healthy "0xABC" 90) in
  _check_blacklists Scenario.config (Scenario.snapshot "0xABC")
    = inr (failed "Token blacklisted") /\
  _security_analysis Scenario.config session (Scenario.snapshot "0xABC") []
    = (inr (failed "Token blacklisted"), []) /\
  analyze_and_trade Scenario.config session "0xABC" []
    = (inr (error_result "'approved'"), [Scenario.dex_request "0xABC"]) /\
  trade_result (error_result "'approved'") = Some (Error "'approved'") /\
  trade_result (failed "Token blacklisted") = Some (Rejected "Token blacklisted").
Proof. cbv zeta. repeat split; vm_compute; reflexivity. Qed.

(** C2, as stated, fails: with a configured percentage of 2 (above 1)
    and a balance of 100, no sizing rejection happens; the order is
    submitted with the amount 200, which exceeds the balance. *)
Lemma C2_oversized_order_is_submitted :
  let config := Scenario.config_with (VStr "2") in
  let session := Scenario.session (Scenario.healthy "0xDEF" 90) in
  Dec.of_pyval (VStr "2") = inr (Dec.Fin false 2 0) /\
  Dec.fin_leb (Dec.Fin false 2 0) Dec.one = false /\
  _get_gmgn_balance config session [] = (inr (Dec.Fin false 100 0), [Scenario.balance_request]) /\
  position_size config (Dec.Fin false 100 0) = inr (Dec.Fin false 200 0) /\
  Dec.fin_leb (Dec.Fin false 200 0) (Dec.Fin false 100 0) = false /\
  _execute_gmgn_order config session (Scenario.snapshot "0xDEF") []
    = (inr (success_result Scenario.confirmation),
       [Scenario.balance_request; Scenario.post_request "200"]).
Proof. cbv zeta. repeat split; vm_compute; reflexivity. Qed.

(** C2, amended.  The code validates nothing about the size: once the
    balance is read and the product [balance * Decimal(pct)] is defined,
    that product is written into the order as its amount and the order
    is submitted, whatever its sign or magnitude.  When the balance is
    positive with at most 18 significant digits, the percentage lies in
    (0, 1] and the product is in the normal exponent range of the
    context, the amount is strictly positive and does not exceed the
    balance. *)
Theorem C2_size_is_submitted_unvalidated
  config session data tr balance tr1 size order req :
  _get_gmgn_balance config session tr = (inr balance, tr1) ->
  position_size config balance = inr size ->
  order_payload config data size = inr order ->
  order_request config order = inr req ->
  Py.subscript order "amount" = inr (VStr (Dec.to_str size)) /\
  (exists url headers, req = POST url headers order 10) /\
  _execute_gmgn_order config session data tr
    = (inr (venue_outcome (session tr1 req)), (tr1 ++ [req])%list) /\
  (forall cb eb v cp ep,
     balance = Dec.Fin false cb eb ->
     0 < cb -> Dec.ndigits cb <= Dec.prec ->
     config_at config "trading" "position_size_pct" = inr v ->
     Dec.of_pyval v = inr (Dec.Fin false cp ep) ->
     0 < cp -> Dec.fin_leb (Dec.Fin false cp ep) Dec.one = true ->
     Dec.Emin <= Dec.ndigits (cb * cp) + (eb + ep) - 1 ->
     Dec.ndigits (cb * cp) + (eb + ep) <= Dec.Emax ->
     Dec.is_positive size = true /\ Dec.fin_leb size balance = true).
Proof.
  intros Hbal Hsize Horder Hreq. split; [|split; [|split]].
  - eapply order_payload_amount; eassumption.
  - destruct (order_request_post _ _ _ Hreq) as (url & key & ->). eauto.
  - eapply _execute_gmgn_order_submits; eassumption.
  - intros cb eb v cp ep -> Hcb Hdig Hcfg Hpct Hcp Hone Hlo Hhi.
    unfold position_size, res_bind in Hsize. rewrite Hcfg, Hpct in Hsize.
    destruct (DecFacts.mul_within_balance cb eb cp ep Hcb Hdig Hcp Hone Hlo Hhi)
      as (cs & es & Hmul & Hpos & Hle).
    rewrite Hmul in Hsize. inversion Hsize; subst size.
    split; [|exact Hle]. cbn. apply Z.ltb_lt. exact Hpos.
Qed.

(** A run with a third of a balance of 123456789.123456789: the product
    has 30 digits and is rounded to 41152263.0411111107. *)
Lemma C2_size_is_submitted_unvalidated_witness :
  Dec.is_positive (Dec.Fin false 411522630411111107 (-10)) = true /\
  Dec.fin_leb (Dec.Fin false 411522630411111107 (-10))
              (Dec.Fin false 123456789123456789 (-9)) = true.
Proof.
  refine (proj2 (proj2 (proj2
    (C2_size_is_submitted_unvalidated
       (Scenario.config_with (VStr "0.333333333333"))
       (Scenario.session
          {| Scenario.dexscreener := Scenario.answer 200 (Scenario.snapshot "0xDEF");
             Scenario.rugcheck := Scenario.answer 200 (Scenario.audit "GOOD" 90);
             Scenario.balance :=
               Scenario.answer 200 (VDict [("available", VStr "123456789.123456789")]);
             Scenario.orders := Scenario.answer 201 Scenario.confirmation |})
       (Scenario.snapshot "0xDEF") []
       (Dec.Fin false 123456789123456789 (-9)) [Scenario.balance_request]
       (Dec.Fin false 411522630411111107 (-10))
       (Scenario.order_with "41152263.0411111107")
       (Scenario.post_request "41152263.0411111107") _ _ _ _)))
    123456789123456789 (-9) (VStr "0.333333333333") 333333333333 (-12)
    _ _ _ _ _ _ _ _ _);
    try (vm_compute; reflexivity); try (vm_compute; discriminate).
Defined.

(** C3, as stated, fails: when the balance read times out the balance is
    zero, yet the order is still submitted, with the amount "0.0". *)
Lemma C3_zero_balance_order_is_submitted :
  let session := Scenario.session
                {| Scenario.dexscreener := Scenario.answer 200 (Scenario.snapshot "0xDEF");
                   Scenario.rugcheck := Scenario.answer 200 (Scenario.audit "GOOD" 90);
                   Scenario.balance := inl Scenario.timeout;
                   Scenario.orders := Scenario.answer 201 Scenario.confirmation |} in
  _get_gmgn_balance Scenario.config session [] = (inr Dec.zero, [Scenario.balance_request]) /\
  _execute_gmgn_order Scenario.config session (Scenario.snapshot "0xDEF") []
    = (inr (success_result Scenario.confirmation),
       [Scenario.balance_request; Scenario.post_request "0.0"]) /\
  posts [Scenario.balance_request; Scenario.post_request "0.0"]
    = [Scenario.post_request "0.0"].
Proof. cbv zeta. repeat split; vm_compute; reflexivity. Qed.

(** C3, amended.  Whenever reading the balance raises, whatever the
    exception, [_get_gmgn_balance] returns exactly zero and raises
    nothing.  The code has no sizing rejection: the size computed from
    that zero balance is not positive, it is written into the order as
    its amount, and the order is submitted once. *)
Theorem C3_failed_balance_read_gives_zero
  config session data tr e tr1 size order req :
  read_balance config session tr = (inl e, tr1) ->
  position_size config Dec.zero = inr size ->
  order_payload config data size = inr order ->
  order_request config order = inr req ->
  _get_gmgn_balance config session tr = (inr Dec.zero, tr1) /\
  Dec.is_positive size = false /\
  Py.subscript order "amount" = inr (VStr (Dec.to_str size)) /\
  _execute_gmgn_order config session data tr
    = (inr (venue_outcome (session tr1 req)), (tr1 ++ [req])%list) /\
  posts (tr1 ++ [req])%list = (posts tr ++ [req])%list.
Proof.
  intros Hread Hsize Horder Hreq.
  assert (Hbal : _get_gmgn_balance config session tr = (inr Dec.zero, tr1)).
  { unfold _get_gmgn_balance, try_except. rewrite Hread. reflexivity. }
  split; [exact Hbal|]. split; [|split; [|split]].
  - unfold position_size, res_bind in Hsize.
    destruct (config_at config "trading" "position_size_pct"); [discriminate|].
    destruct (Dec.of_pyval p) as [|pct]; [discriminate|].
    destruct pct as [neg c x|neg|neg sig payload]; cbn in Hsize.
    + inversion Hsize. destruct neg; reflexivity.
    + discriminate.
    + destruct sig; [discriminate|]. inversion Hsize; reflexivity.
  - eapply order_payload_amount; eassumption.
  - eapply _execute_gmgn_order_submits; eassumption.
  - destruct (order_request_post _ _ _ Hreq) as (url & key & ->).
    rewrite posts_app, (read_balance_posts _ _ _ _ _ Hread). reflexivity.
Qed.

(** A run in which the balance request times out. *)
Lemma C3_failed_balance_read_gives_zero_witness :
  let session := Scenario.session
                {| Scenario.dexscreener := Scenario.answer 200 (Scenario.snapshot "0xDEF");
                   Scenario.rugcheck := Scenario.answer 200 (Scenario.audit "GOOD" 90);
                   Scenario.balance := inl Scenario.timeout;
                   Scenario.orders := Scenario.answer 201 Scenario.confirmation |} in
  _get_gmgn_balance Scenario.config session [] = (inr Dec.zero, [Scenario.balance_request]) /\
  Dec.is_positive (Dec.Fin false 0 (-1)) = false.
Proof.
  cbv zeta.
  refine (let H := C3_failed_balance_read_gives_zero
                     Scenario.config _ (Scenario.snapshot "0xDEF") []
                     Scenario.timeout [Scenario.balance_request]
                     (Dec.Fin false 0 (-1)) (Scenario.order_with "0.0")
                     (Scenario.post_request "0.0") _ _ _ _ in
          conj (proj1 H) (proj1 (proj2 H)));
    vm_compute; reflexivity.
Defined.

(** C4.  The engine returns a value exactly when either some check
    returned a verdict that did not pass, every check before it in the
    order blacklist, audit, liquidity, volume, holders having passed
    (the value is then that first failing verdict, and the trace is the
    one that check left, so no later check issued a request), or every
    check passed (the value is then the approval). *)
Theorem C4_first_failure_wins config session data tr r tr' :
  checks config session =
    [ (fun d => lift (_check_blacklists config d));
      _check_rug_pull_risk config session;
      (fun d => lift (_check_liquidity d));
      (fun d => lift (_validate_volume d));
      (fun d => lift (_analyze_holders d)) ] /\
  (_security_analysis config session data tr = (inr r, tr') <->
   first_failure data (checks config session) tr r tr' \/
   (r = approved /\ passes_through data (checks config session) tr tr')).
Proof.
  split; [reflexivity|].
  unfold _security_analysis. split.
  - apply run_checks_returns.
  - intros [(before & check & after & tr0 & p & Hcs & Hpass & Hcheck & Hsub & Hfalse)
           | [-> Hall]].
    + rewrite Hcs. eapply run_checks_first_failure; eassumption.
    + apply run_checks_all_pass. exact Hall.
Qed.

(** A run of the engine in which the audit check is the first to fail. *)
Lemma C4_first_failure_wins_witness :
  _security_analysis Scenario.config (Scenario.session (Scenario.healthy "0xDEF" 50))
    (Scenario.snapshot "0xDEF") []
  = (inr (failed "Low audit score: 50"), [Scenario.audit_request]).
Proof.
  apply (proj2 (proj2 (C4_first_failure_wins _ _ _ _ _ _))). left.
  exists [fun data => lift (_check_blacklists Scenario.config data)],
         (_check_rug_pull_risk Scenario.config
            (Scenario.session (Scenario.healthy "0xDEF" 50))),
         [fun data => lift (_check_liquidity data);
          fun data => lift (_validate_volume data);
          fun data => lift (_analyze_holders data)],
         [], (VBool false).
  split; [reflexivity|]. split.
  - apply (passes_cons _ _ _ [] passed (VBool true) [] []);
      [reflexivity | reflexivity | reflexivity | constructor].
  - split; [vm_compute; reflexivity|]. split; reflexivity.
Defined.

(** C5 (defect in the code).  The audit check itself fails closed: a
    score of 50 against a minimum of 70 gives the verdict "Low audit
    score: 50", and a provider that times out gives "Audit verification
    error"; no exception leaves the check.  The workflow result is
    nevertheless Error in both runs, because [analyze_and_trade] reads
    the key "approved" of the failing verdict. *)
Theorem C5_failed_audit_is_reported_as_error :
  let low := Scenario.session (Scenario.healthy "0xDEF" 50) in
  let down := Scenario.session
                {| Scenario.dexscreener := Scenario.answer 200 (Scenario.snapshot "0xDEF");
                   Scenario.rugcheck := inl Scenario.timeout;
                   Scenario.balance := Scenario.answer 200 (VDict [("available", VStr "100")]);
                   Scenario.orders := Scenario.answer 201 Scenario.confirmation |} in
  _check_rug_pull_risk Scenario.config low (Scenario.snapshot "0xDEF") []
    = (inr (failed "Low audit score: 50"), [Scenario.audit_request]) /\
  _check_rug_pull_risk Scenario.config down (Scenario.snapshot "0xDEF") []
    = (inr (failed "Audit verification error"), [Scenario.audit_request]) /\
  analyze_and_trade Scenario.config low "0xDEF" []
    = (inr (error_result "'approved'"),
       [Scenario.dex_request "0xDEF"; Scenario.audit_request]) /\
  analyze_and_trade Scenario.config down "0xDEF" []
    = (inr (error_result "'approved'"),
       [Scenario.dex_request "0xDEF"; Scenario.audit_request]).
Proof. cbv zeta. repeat split; vm_compute; reflexivity. Qed.

(** C6, as stated, fails: the adapter never looks at the HTTP status.
    A 404 answer with a JSON body is returned as the snapshot, and the
    workflow goes on to the security checks with it. *)
Lemma C6_non_success_status_is_not_a_failure :
  let body := VDict [("error", VStr "pair not found")] in
  let session := Scenario.session
                {| Scenario.dexscreener := Scenario.answer 404 body;
                   Scenario.rugcheck := Scenario.answer 200 (Scenario.audit "GOOD" 90);
                   Scenario.balance := Scenario.answer 200 (VDict [("available", VStr "100")]);
                   Scenario.orders := Scenario.answer 201 Scenario.confirmation |} in
  _get_dexscreener_data session "0xDEF" [] = (inr body, [Scenario.dex_request "0xDEF"]) /\
  body <> VNone /\
  _check_blacklists Scenario.config body = inl (KeyError "pairAddress") /\
  analyze_and_trade Scenario.config session "0xDEF" []
    = (inr (error_result "'pairAddress'"), [Scenario.dex_request "0xDEF"]).
Proof. cbv zeta. repeat split; try discriminate; vm_compute; reflexivity. Qed.

(** C6, amended.  The market-data fetch never raises and issues exactly
    its one GET: it returns [None] when the request raises or the body
    does not decode, and the decoded body otherwise, whatever the HTTP
    status.  Whenever what it returns is falsy (so in particular after a
    transport error) [analyze_and_trade] returns the error result "Data
    fetch failed" with no further request, hence no audit request or
    order submission. *)
Theorem C6_fetch_failure_stops_the_workflow config session pair_address tr :
  let req := GET ("https://api.dexscreener.com/latest/dex/pairs/" ++ pair_address) [] 10 in
  let fetched := match session tr req with
                 | inr r => match json r with inr body => body | inl _ => VNone end
                 | inl _ => VNone
                 end in
  _get_dexscreener_data session pair_address tr = (inr fetched, (tr ++ [req])%list) /\
  ((exists e, session tr req = inl e) -> fetched = VNone) /\
  (Py.truthy fetched = false ->
   analyze_and_trade config session pair_address tr
     = (inr (error_result "Data fetch failed"), (tr ++ [req])%list) /\
   trade_result (error_result "Data fetch failed") = Some (Error "Data fetch failed")).
Proof.
  cbv zeta. split; [apply _get_dexscreener_data_spec|]. split.
  - intros [e ->]. reflexivity.
  - intros Hfalsy. split; [|reflexivity].
    unfold analyze_and_trade. unfold try_except at 1. unfold bind at 1.
    rewrite _get_dexscreener_data_spec. cbv zeta.
    rewrite Hfalsy. reflexivity.
Qed.

(** A run in which the request to DexScreener times out. *)
Lemma C6_fetch_failure_stops_the_workflow_witness :
  let session := Scenario.session
                {| Scenario.dexscreener := inl Scenario.timeout;
                   Scenario.rugcheck := Scenario.answer 200 (Scenario.audit "GOOD" 90);
                   Scenario.balance := Scenario.answer 200 (VDict [("available", VStr "100")]);
                   Scenario.orders := Scenario.answer 201 Scenario.confirmation |} in
  analyze_and_trade Scenario.config session "0xDEF" []
    = (inr (error_result "Data fetch failed"), [Scenario.dex_request "0xDEF"]).
Proof.
  cbv zeta.
  apply (proj2 (proj2 (C6_fetch_failure_stops_the_workflow Scenario.config _ "0xDEF" []))).
  reflexivity.
Defined.

(** C7 (defect in the code).  In a run where the pair is not
    blacklisted, the audit is GOOD with a score above the minimum and
    the venue would answer 201 to the order (as [_execute_gmgn_order]
    shows when called on the snapshot), [analyze_and_trade] still
    returns an error and submits nothing: the liquidity check is an
    unfinished stub returning [None], and reading its verdict raises. *)
Theorem C7_success_is_unreachable :
  let session := Scenario.session (Scenario.healthy "0xDEF" 90) in
  analyze_and_trade Scenario.config session "0xDEF" []
    = (inr (error_result "'NoneType' object is not subscriptable"),
       [Scenario.dex_request "0xDEF"; Scenario.audit_request]) /\
  _execute_gmgn_order Scenario.config session (Scenario.snapshot "0xDEF") []
    = (inr (success_result Scenario.confirmation),
       [Scenario.balance_request; Scenario.post_request "10.0"]).
Proof. cbv zeta. split; vm_compute; reflexivity. Qed.

(** C8, as stated, fails: a venue that answers 201 with a body that is
    not JSON has received the order, and the call returns an error
    result, not a success. *)
Lemma C8_created_status_without_json_is_an_error :
  let session := Scenario.session
                {| Scenario.dexscreener := Scenario.answer 200 (Scenario.snapshot "0xDEF");
                   Scenario.rugcheck := Scenario.answer 200 (Scenario.audit "GOOD" 90);
                   Scenario.balance := Scenario.answer 200 (VDict [("available", VStr "100")]);
                   Scenario.orders :=
                     inr (mkResponse 201 ""
                            (inl (RequestError "Expecting value: line 1 column 1 (char 0)"))) |} in
  _execute_gmgn_order Scenario.config session (Scenario.snapshot "0xDEF") []
    = (inr (error_result "Expecting value: line 1 column 1 (char 0)"),
       [Scenario.balance_request; Scenario.post_request "10.0"]) /\
  trade_result (error_result "Expecting value: line 1 column 1 (char 0)")
    = Some (Error "Expecting value: line 1 column 1 (char 0)").
Proof. cbv zeta. split; vm_compute; reflexivity. Qed.

(** C8, amended.  A call submits at most one order and never retries.
    When the balance is read and the size, the payload and the request
    are built, exactly one POST is issued, and its answer alone decides
    the result: status 201 with a body that decodes gives the success
    carrying that body unchanged; status 201 with a body that does not
    decode, the error carrying the decoding failure; any other status,
    the error carrying the response text; a transport failure, the error
    carrying its description. *)
Theorem C8_one_submission_per_call
  config session data tr balance tr1 size order req :
  _get_gmgn_balance config session tr = (inr balance, tr1) ->
  position_size config balance = inr size ->
  order_payload config data size = inr order ->
  order_request config order = inr req ->
  _execute_gmgn_order config session data tr
    = (inr (venue_outcome (session tr1 req)), (tr1 ++ [req])%list) /\
  posts (tr1 ++ [req])%list = (posts tr ++ [req])%list /\
  (forall data' tr0,
     exists result tr',
       _execute_gmgn_order config session data' tr0 = (inr result, tr') /\
       (posts tr' = posts tr0 \/
        exists r, is_post r = true /\ posts tr' = (posts tr0 ++ [r])%list)).
Proof.
  intros Hbal Hsize Horder Hreq. split; [|split].
  - eapply _execute_gmgn_order_submits; eassumption.
  - destruct (order_request_post _ _ _ Hreq) as (url & key & ->).
    destruct (_get_gmgn_balance_cases config session tr) as (b & t & Hb & Hposts).
    rewrite Hbal in Hb. inversion Hb; subst.
    rewrite posts_app, Hposts. reflexivity.
  - intros data' tr0. apply _execute_gmgn_order_cases.
Qed.

(** A run in which the venue creates the order. *)
Lemma C8_one_submission_per_call_witness :
  _execute_gmgn_order Scenario.config (Scenario.session (Scenario.healthy "0xDEF" 90))
    (Scenario.snapshot "0xDEF") []
  = (inr (success_result Scenario.confirmation),
     [Scenario.balance_request; Scenario.post_request "10.0"]).
Proof.
  apply (C8_one_submission_per_call
           Scenario.config (Scenario.session (Scenario.healthy "0xDEF" 90))
           (Scenario.snapshot "0xDEF") [] (Dec.Fin false 100 0)
           [Scenario.balance_request] (Dec.Fin false 100 (-1))
           (Scenario.order_with "10.0") (Scenario.post_request "10.0"));
    vm_compute; reflexivity.
Defined.

(** C9, as stated, fails outside the exponent range of the context: a
    balance of 1.5E-999999 and a percentage of 1E-17 have the exact
    product 1.5E-1000016, which is below the smallest exponent the
    context keeps, and the size computed is 2E-1000016: off by a third
    of the product, far beyond the 18th significant digit. *)
Lemma C9_subnormal_product_is_not_exact :
  Dec.of_pyval (VStr "1.5E-999999") = inr (Dec.Fin false 15 (-1000000)) /\
  Dec.is_positive (Dec.Fin false 15 (-1000000)) = true /\
  Dec.of_pyval (VStr "1E-17") = inr (Dec.Fin false 1 (-17)) /\
  Dec.is_positive (Dec.Fin false 1 (-17)) = true /\
  Dec.fin_leb (Dec.Fin false 1 (-17)) Dec.one = true /\
  position_size (Scenario.config_with (VStr "1E-17")) (Dec.Fin false 15 (-1000000))
    = inr (Dec.Fin false 2 (-1000016)) /\
  Dec.scaled false 2 (-1000016) (-1000017) = 20 /\
  Dec.scaled false (15 * 1) (-1000000 + -17) (-1000017) = 15 /\
  15 < 10 ^ 17 * Z.abs (20 - 15).
Proof. repeat split; vm_compute; reflexivity. Qed.

(** C9, amended.  The percentage is the decimal that
    [Decimal(position_size_pct)] builds from the configured value.  For
    a finite positive balance and a positive percentage (so for every
    percentage in (0, 1]) whose product lies in the exponent range of
    the context, the position size is the decimal product
    [balance * pct] rounded half-even to the configured precision of 18
    significant digits.  It is exactly the product whenever the product
    has at most 18 digits.  Otherwise it keeps 18 digits; with [p] the
    weight of the 18th digit of the product, it is a multiple of [p],
    it differs from the product by at most half of [p], and when the
    product lies exactly half way between two multiples of [p] the
    coefficient kept is even.  Values are compared in units of
    [10^(eb+ep)], the exponent of the exact product. *)
Theorem C9_position_size_is_the_decimal_product config cb eb v cp ep :
  0 < cb ->
  config_at config "trading" "position_size_pct" = inr v ->
  Dec.of_pyval v = inr (Dec.Fin false cp ep) ->
  0 < cp ->
  Dec.Emin <= Dec.ndigits (cb * cp) + (eb + ep) - 1 ->
  Dec.ndigits (cb * cp) + (eb + ep) <= Dec.Emax ->
  exists cs es,
    position_size config (Dec.Fin false cb eb) = inr (Dec.Fin false cs es) /\
    0 < cs /\ eb + ep <= es /\
    2 * Z.abs (cs * 10 ^ (es - (eb + ep)) - cb * cp) <= 10 ^ (es - (eb + ep)) /\
    (Dec.ndigits (cb * cp) <= Dec.prec -> cs = cb * cp /\ es = eb + ep) /\
    (Dec.prec < Dec.ndigits (cb * cp) ->
     10 ^ 17 <= cs < 10 ^ 18 /\
     let p := 10 ^ (Dec.ndigits (cb * cp) - Dec.prec) in
     (cs * 10 ^ (es - (eb + ep))) mod p = 0 /\
     2 * Z.abs (cs * 10 ^ (es - (eb + ep)) - cb * cp) <= p /\
     (2 * Z.abs (cs * 10 ^ (es - (eb + ep)) - cb * cp) = p -> Z.even cs = true)).
Proof.
  intros Hcb Hcfg Hpct Hcp Hlo Hhi.
  unfold position_size, res_bind. rewrite Hcfg, Hpct.
  destruct (DecFacts.mul_rounds_product cb eb cp ep Hcb Hcp Hlo Hhi)
    as (cs & es & Hmul & Hpos & Hes & Hnear & Hexact & Hdigits).
  exists cs, es.
  split; [exact Hmul|]. split; [exact Hpos|]. split; [exact Hes|].
  split; [exact Hnear|]. split; [exact Hexact|].
  intros Hbig. split; [exact (Hdigits Hbig)|].
  destruct (DecFacts.mul_half_even cb eb cp ep Hcb Hcp Hbig Hlo Hhi)
    as (cs' & es' & Hmul' & Hhalf).
  rewrite Hmul in Hmul'. injection Hmul' as <- <-. exact Hhalf.
Qed.

(** A balance of 200000000000000001 and a percentage of 0.5: the exact
    product 100000000000000000.5 lies half way between two 18-digit
    values, and the size is the even one, 100000000000000000. *)
Lemma C9_position_size_is_the_decimal_product_witness :
  position_size (Scenario.config_with (VStr "0.5"))
                (Dec.Fin false 200000000000000001 0)
    = inr (Dec.Fin false 100000000000000000 0) /\
  exists cs es,
    position_size (Scenario.config_with (VStr "0.5"))
                  (Dec.Fin false 200000000000000001 0)
      = inr (Dec.Fin false cs es) /\
    0 < cs /\ 0 + -1 <= es /\
    2 * Z.abs (cs * 10 ^ (es - (0 + -1)) - 200000000000000001 * 5)
      <= 10 ^ (es - (0 + -1)) /\
    (Dec.ndigits (200000000000000001 * 5) <= Dec.prec ->
     cs = 200000000000000001 * 5 /\ es = 0 + -1) /\
    (Dec.prec < Dec.ndigits (200000000000000001 * 5) ->
     10 ^ 17 <= cs < 10 ^ 18 /\
     let p := 10 ^ (Dec.ndigits (200000000000000001 * 5) - Dec.prec) in
     (cs * 10 ^ (es - (0 + -1))) mod p = 0 /\
     2 * Z.abs (cs * 10 ^ (es - (0 + -1)) - 200000000000000001 * 5) <= p /\
     (2 * Z.abs (cs * 10 ^ (es - (0 + -1)) - 200000000000000001 * 5) = p ->
      Z.even cs = true)).
Proof.
  split; [vm_compute; reflexivity|].
  apply (C9_position_size_is_the_decimal_product
           (Scenario.config_with (VStr "0.5"))
           200000000000000001 0 (VStr "0.5") 5 (-1));
    try (vm_compute; reflexivity); try (vm_compute; discriminate).
Defined.

(** C10.  When the fetched snapshot passes the blacklist check and the
    audit check, the liquidity stub returns [None], reading its verdict
    raises a [TypeError], and [analyze_and_trade] returns that error
    with only the two GET requests made.  And on every input whatever
    the workflow returns an error result and the trace gains no order
    submission. *)
Theorem C10_stub_checks_make_the_workflow_fail
  config session pair_address tr data tr1 tr2 :
  _get_dexscreener_data session pair_address tr = (inr data, tr1) ->
  Py.truthy data = true ->
  _check_blacklists config data = inr passed ->
  _check_rug_pull_risk config session data tr1 = (inr passed, tr2) ->
  analyze_and_trade config session pair_address tr
    = (inr (error_result "'NoneType' object is not subscriptable"), tr2) /\
  _check_liquidity data = inr VNone /\
  _security_analysis config session data tr1
    = (inl (TypeError "'NoneType' object is not subscriptable"), tr2) /\
  (forall pair_address' tr0,
     exists message tr',
       analyze_and_trade config session pair_address' tr0
         = (inr (error_result message), tr') /\
       trade_result (error_result message) = Some (Error message) /\
       posts tr' = posts tr0).
Proof.
  intros Hfetch Htruthy Hblack Haudit.
  assert (Hengine : _security_analysis config session data tr1
                    = (inl (TypeError "'NoneType' object is not subscriptable"), tr2)).
  { unfold _security_analysis, checks. cbn [run_checks]. unfold_monad.
    rewrite Hblack. cbn. rewrite Haudit. reflexivity. }
  split; [|split; [reflexivity|split; [exact Hengine|]]].
  - unfold analyze_and_trade. unfold try_except at 1. unfold bind at 1.
    rewrite Hfetch, Htruthy. cbn [negb]. unfold bind at 1.
    rewrite Hengine. reflexivity.
  - intros pair_address' tr0.
    destruct (analyze_and_trade_always_error config session pair_address' tr0)
      as (message & tr' & Hrun & Hposts).
    exists message, tr'. repeat split; assumption.
Qed.

(** A run in which the blacklist and the audit checks pass. *)
Lemma C10_stub_checks_make_the_workflow_fail_witness :
  analyze_and_trade Scenario.config (Scenario.session (Scenario.healthy "0xDEF" 90)) "0xDEF" []
    = (inr (error_result "'NoneType' object is not subscriptable"),
       [Scenario.dex_request "0xDEF"; Scenario.audit_request]).
Proof.
  apply (C10_stub_checks_make_the_workflow_fail
           Scenario.config (Scenario.session (Scenario.healthy "0xDEF" 90)) "0xDEF" []
           (Scenario.snapshot "0xDEF") [Scenario.dex_request "0xDEF"]
           [Scenario.dex_request "0xDEF"; Scenario.audit_request]);
    vm_compute; reflexivity.
Defined.

(** * Further properties of the code *)

(** ** The blacklist check *)

Lemma lower_char_idempotent c : Py.lower_char (Py.lower_char c) = Py.lower_char c.
Proof.
  destruct c as [b0 b1 b2 b3 b4 b5 b6 b7].
  destruct b0, b1, b2, b3, b4, b5, b6, b7; reflexivity.
Qed.

Lemma lower_string_idempotent s :
  Py.lower_string (Py.lower_string s) = Py.lower_string s.
Proof.
  induction s as [|c s IH]; [reflexivity|].
  simpl. rewrite lower_char_idempotent, IH. reflexivity.
Qed.

Lemma existsb_str_eq s l : existsb (Py.str_eq s) l = true <-> In (VStr s) l.
Proof.
  rewrite existsb_exists. split.
  - intros (v & Hin & Heq). destruct v; simpl in Heq; try discriminate.
    apply String.eqb_eq in Heq. subst. exact Hin.
  - intros Hin. exists (VStr s). split; [exact Hin|]. simpl. apply String.eqb_refl.
Qed.

(** X1.  Only the pair address is lowercased, never the entries of the
    configured list: a token blacklist whose string entries all contain
    an upper-case letter rejects no pair at all, whatever its address. *)
Theorem upper_case_token_entries_never_match config data tokens :
  config_at config "blacklists" "tokens" = inr (VList tokens) ->
  (forall t, In (VStr t) tokens -> Py.lower_string t <> t) ->
  _check_blacklists config data <> inr (failed "Token blacklisted").
Proof.
  intros Hcfg Hupper. unfold _check_blacklists, res_bind.
  destruct (Py.subscript data "pairAddress") as [e|pair]; [discriminate|].
  destruct (Py.lower pair) as [e|pair_addr] eqn:Hlow; [discriminate|].
  destruct (Py.get data "creator" (VStr "")) as [e|creator]; [discriminate|].
  destruct (Py.lower creator) as [e|creator_addr]; [discriminate|].
  rewrite Hcfg. cbn [Py.contains].
  destruct (existsb (Py.str_eq pair_addr) tokens) eqn:Hin.
  - exfalso. apply existsb_str_eq in Hin.
    apply (Hupper pair_addr Hin).
    destruct pair; simpl in Hlow; try discriminate.
    inversion Hlow; subst. apply lower_string_idempotent.
  - repeat case_match; discriminate.
Qed.

(** The entry "0xABC" does not stop the pair 0xABC. *)
Lemma upper_case_token_entries_never_match_witness :
  _check_blacklists
    (VDict [("blacklists", VDict [("tokens", VList [VStr "0xABC"]);
                                  ("developers", VList [])])])
    (Scenario.snapshot "0xABC")
  <> inr (failed "Token blacklisted").
Proof.
  apply (upper_case_token_entries_never_match _ _ [VStr "0xABC"]).
  - reflexivity.
  - intros t [H|[]]. injection H as <-. vm_compute. discriminate.
Defined.

(** X2.  With lists configured and a snapshot whose pair address is
    an ASCII string and whose creator is an ASCII string or absent, the
    verdict is decided by membership of the lowercased addresses: a
    listed token gives "Token blacklisted" without the developer list
    being read (so also when the developer is listed, or the list is
    missing); otherwise a listed developer gives "Developer
    blacklisted"; otherwise the check passes.  An absent creator counts
    as the empty string.  The addresses are taken in ASCII, where
    lowering a string changes the letters A to Z and nothing else. *)
Theorem blacklist_verdict_by_membership config fields pair creator tokens :
  is_ascii pair = true ->
  is_ascii creator = true ->
  Py.lookup "pairAddress" fields = Some (VStr pair) ->
  Py.get (VDict fields) "creator" (VStr "") = inr (VStr creator) ->
  config_at config "blacklists" "tokens" = inr (VList tokens) ->
  (In (VStr (Py.lower_string pair)) tokens ->
   _check_blacklists config (VDict fields) = inr (failed "Token blacklisted")) /\
  (forall developers,
     ~ In (VStr (Py.lower_string pair)) tokens ->
     config_at config "blacklists" "developers" = inr (VList developers) ->
     (In (VStr (Py.lower_string creator)) developers ->
      _check_blacklists config (VDict fields) = inr (failed "Developer blacklisted")) /\
     (~ In (VStr (Py.lower_string creator)) developers ->
      _check_blacklists config (VDict fields) = inr passed)).
Proof.
  intros _ _ Hpair Hcreator Hcfg.
  assert (Heq :
    _check_blacklists config (VDict fields) =
    (if existsb (Py.str_eq (Py.lower_string pair)) tokens
     then inr (failed "Token blacklisted")
     else
       let* developers := config_at config "blacklists" "developers" in
       let* developer_listed := Py.contains developers (Py.lower_string creator) in
       if developer_listed then inr (failed "Developer blacklisted") else inr passed)).
  { unfold _check_blacklists. cbn [Py.subscript]. rewrite Hpair.
    cbn [res_bind Py.lower]. rewrite Hcreator. cbn [res_bind Py.lower].
    rewrite Hcfg. reflexivity. }
  split.
  - intros Hin. apply existsb_str_eq in Hin. rewrite Heq, Hin. reflexivity.
  - intros developers Hnot Hdev.
    assert (Hf : existsb (Py.str_eq (Py.lower_string pair)) tokens = false).
    { destruct (existsb _ tokens) eqn:H; [|reflexivity].
      apply existsb_str_eq in H. contradiction. }
    rewrite Heq, Hf, Hdev. cbn [res_bind Py.contains]. split.
    + intros Hin. apply existsb_str_eq in Hin. rewrite Hin. reflexivity.
    + intros Hnin.
      destruct (existsb (Py.str_eq (Py.lower_string creator)) developers) eqn:H;
        [|reflexivity].
      apply existsb_str_eq in H. contradiction.
Qed.

(** The pair 0xABC against the list ["0xabc"], with no creator given. *)
Lemma blacklist_verdict_by_membership_witness :
  _check_blacklists Scenario.config (Scenario.snapshot "0xABC")
  = inr (failed "Token blacklisted").
Proof.
  refine (proj1 (blacklist_verdict_by_membership Scenario.config _ "0xABC" ""
                   [VStr "0xabc"] _ _ _ _ _) _).
  - reflexivity.
  - reflexivity.
  - reflexivity.
  - reflexivity.
  - reflexivity.
  - vm_compute. left. reflexivity.
Defined.

(** X3.  The blacklist check reads the snapshot before the
    configuration and validates neither: a snapshot without the key
    [pairAddress] raises [KeyError], a pair address or a creator that is
    not a string raises [AttributeError] (so does a creator of JSON
    [null], unlike an absent one), and this whatever the configuration
    holds. *)
Theorem blacklist_check_raises_on_malformed_snapshot config fields :
  (Py.lookup "pairAddress" fields = None ->
   _check_blacklists config (VDict fields) = inl (KeyError "pairAddress")) /\
  (forall v,
     Py.lookup "pairAddress" fields = Some v ->
     (forall s, v <> VStr s) ->
     _check_blacklists config (VDict fields) = inl (Py.no_attribute v "lower")) /\
  (forall pair v,
     Py.lookup "pairAddress" fields = Some (VStr pair) ->
     Py.lookup "creator" fields = Some v ->
     (forall s, v <> VStr s) ->
     _check_blacklists config (VDict fields) = inl (Py.no_attribute v "lower")).
Proof.
  unfold _check_blacklists. cbn [Py.subscript Py.get]. repeat split.
  - intros ->. reflexivity.
  - intros v -> Hv. cbn [res_bind].
    destruct v; try reflexivity. exfalso. eapply Hv. reflexivity.
  - intros pair v -> -> Hv. cbn [res_bind Py.lower].
    destruct v; try reflexivity. exfalso. eapply Hv. reflexivity.
Qed.

(** A snapshot whose creator is [null]. *)
Lemma blacklist_check_raises_on_malformed_snapshot_witness :
  _check_blacklists Scenario.config
    (VDict [("pairAddress", VStr "0xDEF"); ("creator", VNone)])
  = inl (AttributeError "'NoneType' object has no attribute 'lower'").
Proof.
  refine (proj2 (proj2 (blacklist_check_raises_on_malformed_snapshot
                          Scenario.config _)) "0xDEF" VNone _ _ _).
  - reflexivity.
  - reflexivity.
  - intros s. discriminate.
Defined.

(** X4.  An exception of the blacklist check is not caught by the
    engine: it leaves [_security_analysis] with no request issued, and
    [analyze_and_trade] reports it as the error result carrying its
    message, the market-data request being the only one made. *)
Theorem blacklist_exception_ends_the_workflow
  config session pair_address tr data tr1 e :
  _get_dexscreener_data session pair_address tr = (inr data, tr1) ->
  Py.truthy data = true ->
  _check_blacklists config data = inl e ->
  _security_analysis config session data tr1 = (inl e, tr1) /\
  analyze_and_trade config session pair_address tr
    = (inr (error_result (Py.exn_str e)), tr1).
Proof.
  intros Hfetch Htruthy Hblack.
  assert (Hengine : _security_analysis config session data tr1 = (inl e, tr1)).
  { unfold _security_analysis, checks. cbn [run_checks]. unfold_monad.
    rewrite Hblack. reflexivity. }
  split; [exact Hengine|].
  unfold analyze_and_trade. unfold try_except at 1. unfold bind at 1.
  rewrite Hfetch, Htruthy. cbn [negb]. unfold bind at 1.
  rewrite Hengine. reflexivity.
Qed.

(** DexScreener answers a document that has no [pairAddress]. *)
Lemma blacklist_exception_ends_the_workflow_witness :
  let session :=
    Scenario.session
      {| Scenario.dexscreener :=
           Scenario.answer 200 (VDict [("schemaVersion", VStr "1.0.0"); ("pairs", VNone)]);
         Scenario.rugcheck := Scenario.answer 200 (Scenario.audit "GOOD" 90);
         Scenario.balance := Scenario.answer 200 (VDict [("available", VStr "100")]);
         Scenario.orders := Scenario.answer 201 Scenario.confirmation |} in
  analyze_and_trade Scenario.config session "0xDEF" []
    = (inr (error_result "'pairAddress'"), [Scenario.dex_request "0xDEF"]).
Proof.
  cbv zeta.
  refine (proj2 (blacklist_exception_ends_the_workflow
                   Scenario.config _ "0xDEF" []
                   (VDict [("schemaVersion", VStr "1.0.0"); ("pairs", VNone)])
                   [Scenario.dex_request "0xDEF"] (KeyError "pairAddress") _ _ _));
    vm_compute; reflexivity.
Defined.

Lemma prefix_spec s t :
  String.prefix s t = true <-> exists post, t = s ++ post.
Proof.
  revert t. induction s as [|c s IH]; intros t.
  - split; [intros _; exists t; reflexivity|]. intros _. destruct t; reflexivity.
  - destruct t as [|c' t]; simpl.
    + split; [discriminate|]. intros [post H]. discriminate.
    + destruct (ascii_dec c c') as [->|Hne].
      * rewrite IH. split; intros [post H]; exists post.
        -- subst. reflexivity.
        -- inversion H. reflexivity.
      * split; [discriminate|]. intros [post H]. inversion H. congruence.
Qed.

Lemma is_substring_spec s t :
  Py.is_substring s t = true <-> exists pre post, t = pre ++ s ++ post.
Proof.
  induction t as [|c t IH].
  - cbn [Py.is_substring]. rewrite orb_false_r, prefix_spec. split.
    + intros [post H]. exists "", post. exact H.
    + intros (pre & post & H). destruct pre; [exists post; exact H|discriminate].
  - cbn [Py.is_substring]. rewrite orb_true_iff, IH, prefix_spec. split.
    + intros [[post H] | (pre & post & H)].
      * exists "", post. exact H.
      * exists (String c pre), post. simpl. rewrite H. reflexivity.
    + intros (pre & post & H). destruct pre as [|c' pre].
      * left. exists post. exact H.
      * right. simpl in H. inversion H. exists pre, post. reflexivity.
Qed.

(** X5.  The configuration is not checked to hold lists.  When
    [blacklists.tokens] is a single string, [in] is Python's substring
    test: a pair of ASCII address is rejected as "Token blacklisted"
    exactly when its lowercased address occurs somewhere inside that
    string, so every fragment of a listed address is rejected too. *)
Theorem token_string_is_matched_by_substring config fields pair creator listed :
  is_ascii pair = true ->
  Py.lookup "pairAddress" fields = Some (VStr pair) ->
  Py.get (VDict fields) "creator" (VStr "") = inr (VStr creator) ->
  config_at config "blacklists" "tokens" = inr (VStr listed) ->
  (_check_blacklists config (VDict fields) = inr (failed "Token blacklisted") <->
   exists before after, listed = before ++ Py.lower_string pair ++ after).
Proof.
  intros _ Hpair Hcreator Hcfg. rewrite <- is_substring_spec.
  unfold _check_blacklists. cbn [Py.subscript]. rewrite Hpair.
  cbn [res_bind Py.lower]. rewrite Hcreator. cbn [res_bind Py.lower].
  rewrite Hcfg. cbn [res_bind Py.contains].
  destruct (Py.is_substring (Py.lower_string pair) listed).
  - split; reflexivity.
  - split; [|discriminate]. unfold res_bind. intros H.
    repeat case_match; discriminate.
Qed.

(** The pair 0xAB against the string "0xabcdef". *)
Lemma token_string_is_matched_by_substring_witness :
  _check_blacklists
    (VDict [("blacklists", VDict [("tokens", VStr "0xabcdef");
                                  ("developers", VList [])])])
    (Scenario.snapshot "0xAB")
  = inr (failed "Token blacklisted").
Proof.
  refine (proj2 (token_string_is_matched_by_substring _ _ "0xAB" "" "0xabcdef" _ _ _ _) _).
  - reflexivity.
  - reflexivity.
  - reflexivity.
  - reflexivity.
  - exists "", "cdef". reflexivity.
Defined.

(** ** The audit check *)

Lemma not_GOOD v : v <> VStr "GOOD" -> Py.eq v (VStr "GOOD") = false.
Proof.
  intros Hv. destruct (Py.eq v (VStr "GOOD")) eqn:H; [|reflexivity].
  apply eq_str_inv in H. contradiction.
Qed.

(** X6.  The audit check never raises and issues at most one request,
    a GET.  It returns either the passing verdict, and then the provider
    did answer a dictionary whose status is the string GOOD and whose
    score (0 when absent) is not below the configured minimum, or a
    failing verdict whose reason is one of "Failed security audit",
    "Audit verification error" and "Low audit score: " followed by the
    score. *)
Theorem audit_check_never_raises_and_fails_closed config session data tr :
  exists v tr',
    _check_rug_pull_risk config session data tr = (inr v, tr') /\
    (tr' = tr \/ exists url, tr' = (tr ++ [GET url [] 10])%list) /\
    ((v = passed /\
      exists url r audit score min_score,
        session tr (GET url [] 10) = inr r /\ json r = inr audit /\
        Py.get audit "auditStatus" VNone = inr (VStr "GOOD") /\
        Py.get audit "auditScore" (VInt 0) = inr score /\
        config_at config "rugcheck" "min_score" = inr min_score /\
        Py.lt score min_score = inr false) \/
     (exists reason,
        v = failed reason /\
        (reason = "Failed security audit" \/
         reason = "Audit verification error" \/
         exists score, reason = "Low audit score: " ++ Py.str score))).
Proof.
  destruct (_check_rug_pull_risk config session data tr) as [[e|v] tr'] eqn:Hrun.
  { destruct (_check_rug_pull_risk_cases config session data tr) as (v & t & H & _).
    rewrite Hrun in H. discriminate. }
  exists v, tr'. split; [reflexivity|].
  destruct (_check_rug_pull_risk_cases config session data tr) as (v0 & t & H & _ & Htr).
  rewrite Hrun in H. inversion H; subst v0 t. split; [exact Htr|].
  assert (Hv : v = passed \/
               exists reason, v = failed reason /\
                 (reason = "Failed security audit" \/
                  reason = "Audit verification error" \/
                  exists score, reason = "Low audit score: " ++ Py.str score)).
  { clear H Htr. revert Hrun. unfold _check_rug_pull_risk. unfold_monad. intros Hrun.
    repeat case_match;
      repeat match goal with
             | H : (_, _) = (_, _) |- _ => inversion H; subst; clear H
             end;
      try discriminate; eauto 10;
      right; eexists; (split; [reflexivity|]); right; right; eexists; reflexivity. }
  destruct Hv as [-> | Hfail]; [left|right; exact Hfail].
  split; [reflexivity|].
  destruct (_check_rug_pull_risk_passed _ _ _ _ _ Hrun)
    as (url & r & audit & score & min_score & H1 & H2 & _ & H3 & H4 & H5 & H6).
  exists url, r, audit, score, min_score. repeat split; assumption.
Qed.

Section AuditRequest.

Variables (config : pyval) (session : Session) (data : pyval) (tr : trace).
Variables (endpoint base address : pyval).
Hypothesis Hendpoint : config_at config "rugcheck" "endpoint" = inr endpoint.
Hypothesis Hbase : Py.subscript data "baseToken" = inr base.
Hypothesis Haddress : Py.subscript base "address" = inr address.

Let req : request := GET (Py.str endpoint ++ "/audit/" ++ Py.str address) [] 10.

Lemma audit_check_after_answer r :
  session tr req = inr r ->
  _check_rug_pull_risk config session data tr =
  try_except
    (audit <- lift (json r) ;;
     status <- lift (Py.get audit "auditStatus" VNone) ;;
     if negb (Py.eq status (VStr "GOOD")) then ret (failed "Failed security audit")
     else
       score <- lift (Py.get audit "auditScore" (VInt 0)) ;;
       min_score <- lift (config_at config "rugcheck" "min_score") ;;
       low <- lift (Py.lt score min_score) ;;
       if low then
         shown <- lift (Py.subscript audit "auditScore") ;;
         ret (failed ("Low audit score: " ++ Py.str shown))
       else ret passed)
    (fun _ => ret (failed "Audit verification error"))
    (tr ++ [req])%list.
Proof.
  intros Hr. unfold _check_rug_pull_risk. unfold_monad.
  rewrite Hendpoint, Hbase, Haddress. fold req. rewrite Hr. reflexivity.
Qed.

(** X7.  The status is compared with the exact string "GOOD": any
    other status value (another string such as "good", a number, an
    absent status) gives "Failed security audit", and neither the score
    nor the configured minimum is then read. *)
Theorem audit_status_must_be_exactly_GOOD r fields status :
  session tr req = inr r ->
  json r = inr (VDict fields) ->
  Py.get (VDict fields) "auditStatus" VNone = inr status ->
  status <> VStr "GOOD" ->
  _check_rug_pull_risk config session data tr
    = (inr (failed "Failed security audit"), (tr ++ [req])%list).
Proof.
  intros Hr Hjson Hstatus Hne. rewrite (audit_check_after_answer r Hr).
  unfold_monad. rewrite Hjson, Hstatus, (not_GOOD _ Hne). reflexivity.
Qed.

(** X8.  A GOOD audit that carries no score is read as score 0 by the
    comparison, but the reason is built from the missing key: against an
    integer minimum above 0 the verdict is "Audit verification error",
    never "Low audit score", and against a minimum of 0 or less the
    check passes. *)
Theorem audit_without_score r fields minimum :
  session tr req = inr r ->
  json r = inr (VDict fields) ->
  Py.lookup "auditStatus" fields = Some (VStr "GOOD") ->
  Py.lookup "auditScore" fields = None ->
  config_at config "rugcheck" "min_score" = inr (VInt minimum) ->
  _check_rug_pull_risk config session data tr
    = (inr (if 0 <? minimum then failed "Audit verification error" else passed),
       (tr ++ [req])%list).
Proof.
  intros Hr Hjson Hstatus Hscore Hmin. rewrite (audit_check_after_answer r Hr).
  unfold_monad. rewrite Hjson. cbn [Py.get Py.subscript]. rewrite Hstatus, Hscore, Hmin.
  cbn. destruct (0 <? minimum); reflexivity.
Qed.

(** X9.  Whatever goes wrong with the provider gives the one verdict
    "Audit verification error": a request that raises, a body that does
    not decode, and a decoded body that is not a dictionary. *)
Theorem audit_provider_failures_give_one_verdict :
  (forall e, session tr req = inl e ->
     _check_rug_pull_risk config session data tr
       = (inr (failed "Audit verification error"), (tr ++ [req])%list)) /\
  (forall r e, session tr req = inr r -> json r = inl e ->
     _check_rug_pull_risk config session data tr
       = (inr (failed "Audit verification error"), (tr ++ [req])%list)) /\
  (forall r body, session tr req = inr r -> json r = inr body ->
     (forall fields, body <> VDict fields) ->
     _check_rug_pull_risk config session data tr
       = (inr (failed "Audit verification error"), (tr ++ [req])%list)).
Proof.
  repeat split.
  - intros e He.
    apply (_check_rug_pull_risk_provider_error config session data tr endpoint base address);
      try assumption. left. exists e. exact He.
  - intros r e Hr Hjson.
    apply (_check_rug_pull_risk_provider_error config session data tr endpoint base address);
      try assumption. right. exists r, e. split; assumption.
  - intros r body Hr Hjson Hshape. rewrite (audit_check_after_answer r Hr).
    unfold_monad. rewrite Hjson.
    destruct body; try reflexivity. exfalso. eapply Hshape. reflexivity.
Qed.

End AuditRequest.

(** X10.  The audit request is only made when its address can be
    formed: without [rugcheck.endpoint] in the configuration, or
    without [baseToken.address] in the snapshot, the check returns
    "Audit verification error" and issues no request. *)
Theorem audit_check_without_address_sends_nothing config session data tr :
  (exists e, config_at config "rugcheck" "endpoint" = inl e) \/
  (exists e, (let* base := Py.subscript data "baseToken" in
              Py.subscript base "address") = inl e) ->
  _check_rug_pull_risk config session data tr
    = (inr (failed "Audit verification error"), tr).
Proof.
  intros H. unfold _check_rug_pull_risk. unfold_monad.
  destruct H as [[e ->] | [e He]]; [reflexivity|].
  destruct (config_at config "rugcheck" "endpoint"); [reflexivity|].
  unfold res_bind in He. rewrite He. reflexivity.
Qed.

(** The status "good" in lower case. *)
Lemma audit_status_must_be_exactly_GOOD_witness :
  _check_rug_pull_risk Scenario.config
    (Scenario.session
       {| Scenario.dexscreener := Scenario.answer 200 (Scenario.snapshot "0xDEF");
          Scenario.rugcheck := Scenario.answer 200 (Scenario.audit "good" 90);
          Scenario.balance := Scenario.answer 200 (VDict [("available", VStr "100")]);
          Scenario.orders := Scenario.answer 201 Scenario.confirmation |})
    (Scenario.snapshot "0xDEF") []
  = (inr (failed "Failed security audit"), [Scenario.audit_request]).
Proof.
  refine (audit_status_must_be_exactly_GOOD Scenario.config _ (Scenario.snapshot "0xDEF") []
            (VStr "https://rugcheck.example") (VDict [("address", VStr "0xbase")])
            (VStr "0xbase") _ _ _
            (mkResponse 200 (Py.repr (Scenario.audit "good" 90)) (inr (Scenario.audit "good" 90)))
            [("auditStatus", VStr "good"); ("auditScore", VInt 90)] (VStr "good")
            _ _ _ _);
    try reflexivity. discriminate.
Defined.

(** A GOOD audit with no score against the minimum 70. *)
Lemma audit_without_score_witness :
  _check_rug_pull_risk Scenario.config
    (Scenario.session
       {| Scenario.dexscreener := Scenario.answer 200 (Scenario.snapshot "0xDEF");
          Scenario.rugcheck := Scenario.answer 200 (VDict [("auditStatus", VStr "GOOD")]);
          Scenario.balance := Scenario.answer 200 (VDict [("available", VStr "100")]);
          Scenario.orders := Scenario.answer 201 Scenario.confirmation |})
    (Scenario.snapshot "0xDEF") []
  = (inr (failed "Audit verification error"), [Scenario.audit_request]).
Proof.
  refine (audit_without_score Scenario.config _ (Scenario.snapshot "0xDEF") []
            (VStr "https://rugcheck.example") (VDict [("address", VStr "0xbase")])
            (VStr "0xbase") _ _ _
            (mkResponse 200 (Py.repr (VDict [("auditStatus", VStr "GOOD")]))
                        (inr (VDict [("auditStatus", VStr "GOOD")])))
            [("auditStatus", VStr "GOOD")] 70 _ _ _ _ _);
    reflexivity.
Defined.

(** The provider answers a JSON list. *)
Lemma audit_provider_failures_give_one_verdict_witness :
  _check_rug_pull_risk Scenario.config
    (Scenario.session
       {| Scenario.dexscreener := Scenario.answer 200 (Scenario.snapshot "0xDEF");
          Scenario.rugcheck := Scenario.answer 200 (VList [VStr "GOOD"]);
          Scenario.balance := Scenario.answer 200 (VDict [("available", VStr "100")]);
          Scenario.orders := Scenario.answer 201 Scenario.confirmation |})
    (Scenario.snapshot "0xDEF") []
  = (inr (failed "Audit verification error"), [Scenario.audit_request]).
Proof.
  refine (proj2 (proj2 (audit_provider_failures_give_one_verdict Scenario.config _
            (Scenario.snapshot "0xDEF") []
            (VStr "https://rugcheck.example") (VDict [("address", VStr "0xbase")])
            (VStr "0xbase") _ _ _))
            (mkResponse 200 (Py.repr (VList [VStr "GOOD"])) (inr (VList [VStr "GOOD"])))
            (VList [VStr "GOOD"]) _ _ _);
    try reflexivity. intros fields. discriminate.
Defined.

(** A snapshot without [baseToken]. *)
Lemma audit_check_without_address_sends_nothing_witness :
  _check_rug_pull_risk Scenario.config (Scenario.session (Scenario.healthy "0xDEF" 90))
    (VDict [("pairAddress", VStr "0xDEF")]) []
  = (inr (failed "Audit verification error"), []).
Proof.
  apply audit_check_without_address_sends_nothing.
  right. exists (KeyError "baseToken"). reflexivity.
Defined.

(** ** The engine and the workflow *)

(** X11.  The loop stops at the first exception as it stops at the
    first failing verdict: when the checks before some check all pass
    and that check raises, or returns something whose key [passed]
    cannot be read, the engine raises that exception with the trace as
    the check left it, so no later check runs. *)
Theorem engine_stops_at_first_exception data before check after tr tr0 e tr' :
  passes_through data before tr tr0 ->
  check data tr0 = (inl e, tr') \/
  (exists v, check data tr0 = (inr v, tr') /\ Py.subscript v "passed" = inl e) ->
  run_checks (before ++ check :: after) data tr = (inl e, tr').
Proof.
  intros Hpass Hraise.
  induction Hpass as [tr|c rest tr v0 p0 tr1 tr2 Hc Hs Ht _ IH].
  - simpl. unfold_monad. destruct Hraise as [-> | (v & -> & ->)]; reflexivity.
  - simpl. unfold_monad. rewrite Hc, Hs, Ht. simpl. apply IH. exact Hraise.
Qed.

(** The five checks on a sound pair: the first two pass and the
    liquidity stub returns [None]. *)
Lemma engine_stops_at_first_exception_witness :
  _security_analysis Scenario.config (Scenario.session (Scenario.healthy "0xDEF" 90))
    (Scenario.snapshot "0xDEF") []
  = (inl (TypeError "'NoneType' object is not subscriptable"), [Scenario.audit_request]).
Proof.
  refine (engine_stops_at_first_exception (Scenario.snapshot "0xDEF")
            [fun data => lift (_check_blacklists Scenario.config data);
             _check_rug_pull_risk Scenario.config
               (Scenario.session (Scenario.healthy "0xDEF" 90))]
            (fun data => lift (_check_liquidity data))
            [fun data => lift (_validate_volume data);
             fun data => lift (_analyze_holders data)]
            [] [Scenario.audit_request] _ [Scenario.audit_request] _ _).
  - apply (passes_cons _ _ _ [] passed (VBool true) [] [Scenario.audit_request]);
      [reflexivity | reflexivity | reflexivity |].
    apply (passes_cons _ _ _ [] passed (VBool true) [Scenario.audit_request]
                       [Scenario.audit_request]);
      [vm_compute; reflexivity | reflexivity | reflexivity | constructor].
  - right. exists VNone. split; reflexivity.
Defined.

(** X12.  Every run of [analyze_and_trade] ends in one of these ways,
    and the audit request is made only when the blacklist check has
    passed: the fetched document is falsy ("Data fetch failed"); the
    blacklist check raises (its message); the blacklist check rejects
    ("'approved'", by the key the workflow reads); or the blacklist
    check passes and the audit check runs, whose failing verdict gives
    "'approved'" and whose passing verdict leads to the liquidity stub
    ("'NoneType' object is not subscriptable"). *)
Theorem workflow_outcomes config session pair_address tr :
  let req := GET ("https://api.dexscreener.com/latest/dex/pairs/" ++ pair_address) [] 10 in
  let fetched := match session tr req with
                 | inr r => match json r with inr body => body | inl _ => VNone end
                 | inl _ => VNone
                 end in
  let run := analyze_and_trade config session pair_address tr in
  (Py.truthy fetched = false /\
   run = (inr (error_result "Data fetch failed"), (tr ++ [req])%list)) \/
  (Py.truthy fetched = true /\
   ((exists e, _check_blacklists config fetched = inl e /\
               run = (inr (error_result (Py.exn_str e)), (tr ++ [req])%list)) \/
    (exists reason, _check_blacklists config fetched = inr (failed reason) /\
                    run = (inr (error_result "'approved'"), (tr ++ [req])%list)) \/
    (_check_blacklists config fetched = inr passed /\
     exists tr',
       (_check_rug_pull_risk config session fetched (tr ++ [req])%list = (inr passed, tr') /\
        run = (inr (error_result "'NoneType' object is not subscriptable"), tr')) \/
       (exists reason,
          _check_rug_pull_risk config session fetched (tr ++ [req])%list
            = (inr (failed reason), tr') /\
          run = (inr (error_result "'approved'"), tr'))))).
Proof.
  cbv zeta.
  remember (analyze_and_trade config session pair_address tr) as run eqn:Hrun.
  unfold analyze_and_trade in Hrun. unfold try_except at 1 in Hrun.
  unfold bind at 1 in Hrun. rewrite _get_dexscreener_data_spec in Hrun.
  cbv zeta in Hrun. revert Hrun.
  match goal with |- context [Py.truthy ?d] => generalize d; intros data end.
  destruct (Py.truthy data) eqn:Htruthy; cbn [negb]; intros Hrun; [right|left].
  2:{ split; [reflexivity|exact Hrun]. }
  split; [reflexivity|]. unfold bind at 1 in Hrun.
  unfold _security_analysis, checks in Hrun. cbn [run_checks] in Hrun.
  unfold bind at 1 in Hrun. unfold lift at 1 in Hrun.
  destruct (_check_blacklists config data) as [e|v] eqn:Hb.
  - left. exists e. split; [reflexivity|exact Hrun].
  - right. destruct (_check_blacklists_cases _ _ _ Hb) as [-> | [-> | ->]].
    + left. eexists. split; [reflexivity|exact Hrun].
    + left. eexists. split; [reflexivity|exact Hrun].
    + right. split; [reflexivity|]. cbn in Hrun. unfold bind at 1 in Hrun.
      match type of Hrun with
      | context [_check_rug_pull_risk config session data ?t] =>
          destruct (_check_rug_pull_risk_cases config session data t)
            as (v & tr' & Hr & Hv & _)
      end.
      exists tr'. rewrite Hr in Hrun. destruct Hv as [-> | [reason ->]].
      * left. split; [exact Hr|exact Hrun].
      * right. exists reason. split; [exact Hr|exact Hrun].
Qed.

(** ** Execution of the order, continued *)

(** X13.  [_execute_gmgn_order] reports success only for an order it
    has really submitted: a success result means that exactly one POST
    was added to the trace, that the venue answered it with status 201
    and a JSON body, and that the result carries that body. *)
Theorem order_success_requires_created_answer
  config session data tr confirmation tr' :
  _execute_gmgn_order config session data tr = (inr (success_result confirmation), tr') ->
  exists tr1 req r,
    tr' = (tr1 ++ [req])%list /\
    is_post req = true /\
    posts tr' = (posts tr ++ [req])%list /\
    session tr1 req = inr r /\
    status_code r = 201 /\
    json r = inr confirmation.
Proof.
  intros Hrun.
  destruct (_get_gmgn_balance_cases config session tr) as (balance & tr1 & Hbal & Hposts).
  destruct (position_size config balance) as [e|size] eqn:Hsize.
  { revert Hrun. unfold _execute_gmgn_order. unfold try_except at 1. unfold bind at 1.
    rewrite Hbal. unfold_monad. rewrite Hsize. discriminate. }
  destruct (order_payload config data size) as [e|order] eqn:Horder.
  { revert Hrun. unfold _execute_gmgn_order. unfold try_except at 1. unfold bind at 1.
    rewrite Hbal. unfold_monad. rewrite Hsize, Horder. discriminate. }
  destruct (order_request config order) as [e|req] eqn:Hreq.
  { revert Hrun. unfold _execute_gmgn_order. unfold try_except at 1. unfold bind at 1.
    rewrite Hbal. unfold_monad. rewrite Hsize, Horder, Hreq. discriminate. }
  rewrite (_execute_gmgn_order_submits _ _ _ _ _ _ _ _ _ Hbal Hsize Horder Hreq) in Hrun.
  inversion Hrun as [[Hout Htr]]. clear Hrun.
  destruct (order_request_post _ _ _ Hreq) as (url & key & Hpost).
  exists tr1, req. unfold venue_outcome in Hout.
  destruct (session tr1 req) as [e|r]; [discriminate|].
  exists r. split; [reflexivity|]. split; [rewrite Hpost; reflexivity|].
  split; [rewrite posts_app, Hposts, Hpost; reflexivity|].
  split; [reflexivity|].
  destruct (Z.eqb_spec (status_code r) 201) as [H201|]; [|discriminate].
  split; [exact H201|].
  destruct (json r); [discriminate|]. inversion Hout. reflexivity.
Qed.

(** The venue creates the order. *)
Lemma order_success_requires_created_answer_witness :
  exists tr1 req r,
    [Scenario.balance_request; Scenario.post_request "10.0"] = (tr1 ++ [req])%list /\
    is_post req = true /\
    posts [Scenario.balance_request; Scenario.post_request "10.0"] = (posts [] ++ [req])%list /\
    Scenario.session (Scenario.healthy "0xDEF" 90) tr1 req = inr r /\
    status_code r = 201 /\
    json r = inr Scenario.confirmation.
Proof.
  apply (order_success_requires_created_answer Scenario.config
           (Scenario.session (Scenario.healthy "0xDEF" 90)) (Scenario.snapshot "0xDEF")).
  vm_compute. reflexivity.
Defined.

(** X14.  An order that cannot be built is never submitted.  When the
    size, the payload or the request raises (a percentage that is not a
    number, a snapshot without a price, a configuration without the
    venue key), the call returns the error result carrying the message;
    the balance request has already been made, and no POST follows. *)
Theorem order_not_built_is_not_submitted config session data tr balance tr1 e :
  _get_gmgn_balance config session tr = (inr balance, tr1) ->
  (let* size := position_size config balance in
   let* order := order_payload config data size in
   order_request config order) = inl e ->
  _execute_gmgn_order config session data tr
    = (inr (error_result (Py.exn_str e)), tr1) /\
  posts tr1 = posts tr.
Proof.
  intros Hbal Hbuild. split.
  - unfold _execute_gmgn_order. unfold try_except at 1. unfold bind at 1.
    rewrite Hbal. unfold_monad.
    destruct (position_size config balance) as [e1|size]; [inversion Hbuild; reflexivity|].
    destruct (order_payload config data size) as [e2|order]; [inversion Hbuild; reflexivity|].
    rewrite Hbuild. reflexivity.
  - destruct (_get_gmgn_balance_cases config session tr) as (b & t & Hb & Hposts).
    rewrite Hbal in Hb. inversion Hb; subst. exact Hposts.
Qed.

(** A snapshot that has no [priceUsd]. *)
Lemma order_not_built_is_not_submitted_witness :
  _execute_gmgn_order Scenario.config (Scenario.session (Scenario.healthy "0xDEF" 90))
    (VDict [("pairAddress", VStr "0xDEF");
            ("baseToken", VDict [("address", VStr "0xbase")]);
            ("quoteToken", VDict [("address", VStr "0xquote")])]) []
  = (inr (error_result "'priceUsd'"), [Scenario.balance_request]).
Proof.
  refine (proj1 (order_not_built_is_not_submitted Scenario.config _ _ []
                   (Dec.Fin false 100 0) [Scenario.balance_request]
                   (KeyError "priceUsd") _ _));
    vm_compute; reflexivity.
Defined.

(** X15.  A balance other than zero always comes from the venue: when
    [_get_gmgn_balance] returns a decimal that is not [Decimal(0)], one
    GET for [/account/balance] carrying the API key was answered, its
    body decoded, and the decimal is the conversion of its field
    [available]. *)
Theorem nonzero_balance_comes_from_the_venue config session tr balance tr' :
  _get_gmgn_balance config session tr = (inr balance, tr') ->
  balance <> Dec.zero ->
  exists endpoint api_key r body available,
    config_at config "gmgn" "endpoint" = inr endpoint /\
    config_at config "gmgn" "api_key" = inr api_key /\
    let req := GET (Py.str endpoint ++ "/account/balance") [("X-API-KEY", api_key)] 5 in
    tr' = (tr ++ [req])%list /\
    session tr req = inr r /\
    json r = inr body /\
    Py.subscript body "available" = inr available /\
    Dec.of_pyval available = inr balance.
Proof.
  unfold _get_gmgn_balance, read_balance. unfold_monad. intros Hrun Hnz.
  destruct (config_at config "gmgn" "endpoint") as [e|endpoint];
    [inversion Hrun; congruence|].
  destruct (config_at config "gmgn" "api_key") as [e|api_key];
    [inversion Hrun; congruence|].
  destruct (session tr _) as [e|r] eqn:Hr; [inversion Hrun; congruence|].
  destruct (json r) as [e|body] eqn:Hjson; [inversion Hrun; congruence|].
  destruct (Py.subscript body "available") as [e|available] eqn:Hav;
    [inversion Hrun; congruence|].
  destruct (Dec.of_pyval available) as [e|d] eqn:Hdec; [inversion Hrun; congruence|].
  inversion Hrun; subst.
  exists endpoint, api_key, r, body, available. cbv zeta. repeat split; assumption.
Qed.

(** The venue reports 100 available. *)
Lemma nonzero_balance_comes_from_the_venue_witness :
  exists endpoint api_key r body available,
    config_at Scenario.config "gmgn" "endpoint" = inr endpoint /\
    config_at Scenario.config "gmgn" "api_key" = inr api_key /\
    let req := GET (Py.str endpoint ++ "/account/balance") [("X-API-KEY", api_key)] 5 in
    [Scenario.balance_request] = ([] ++ [req])%list /\
    Scenario.session (Scenario.healthy "0xDEF" 90) [] req = inr r /\
    json r = inr body /\
    Py.subscript body "available" = inr available /\
    Dec.of_pyval available = inr (Dec.Fin false 100 0).
Proof.
  apply (nonzero_balance_comes_from_the_venue Scenario.config
           (Scenario.session (Scenario.healthy "0xDEF" 90)) []).
  - vm_compute. reflexivity.
  - discriminate.
Defined.

(** ** The amount written into the order *)

(** *** Digit strings *)

Lemma chars_app s t : list_ascii_of_string (s ++ t) = (list_ascii_of_string s ++ list_ascii_of_string t)%list.
Proof. induction s as [|c s IH]; [reflexivity|]. simpl. rewrite IH. reflexivity. Qed.

Lemma chars_length s : List.length (list_ascii_of_string s) = String.length s.
Proof. induction s as [|c s IH]; [reflexivity|]. simpl. rewrite IH. reflexivity. Qed.

Lemma chars_substring s : forall n m,
  list_ascii_of_string (String.substring n m s) = firstn m (skipn n (list_ascii_of_string s)).
Proof.
  induction s as [|c s IH]; intros n m.
  - destruct n, m; reflexivity.
  - destruct n as [|n].
    + destruct m as [|m]; [reflexivity|]. simpl. rewrite IH. reflexivity.
    + simpl. apply IH.
Qed.

Lemma chars_zeros n : list_ascii_of_string (Dec.zeros n) = List.repeat "0"%char (Z.to_nat n).
Proof. apply list_ascii_of_string_of_list_ascii. Qed.

Lemma uint_digits d : forallb Dec.is_digit (list_ascii_of_string (NilEmpty.string_of_uint d)) = true.
Proof. induction d; simpl; try rewrite IHd; reflexivity. Qed.

Lemma uint_value_acc d : forall acc,
  fold_left (fun (acc : Z) (c : ascii) => 10 * acc + (Z.of_N (N_of_ascii c) - 48)) (list_ascii_of_string (NilEmpty.string_of_uint d)) (Z.pos acc)
  = Z.pos (Pos.of_uint_acc d acc).
Proof.
  induction d; intros acc;
    cbn [NilEmpty.string_of_uint list_ascii_of_string fold_left Pos.of_uint_acc];
    [reflexivity|..];
    rewrite <- IHd; f_equal;
    match goal with
    | |- context [Z.of_N (N_of_ascii ?c)] =>
        let v := eval vm_compute in (Z.of_N (N_of_ascii c)) in
        change (Z.of_N (N_of_ascii c)) with v
    end;
    lia.
Qed.

Lemma uint_value d :
  fold_left (fun (acc : Z) (c : ascii) => 10 * acc + (Z.of_N (N_of_ascii c) - 48)) (list_ascii_of_string (NilEmpty.string_of_uint d)) 0 = Z.of_N (Pos.of_uint d).
Proof.
  induction d;
    cbn [NilEmpty.string_of_uint list_ascii_of_string fold_left Pos.of_uint];
    [reflexivity|exact IHd|..]; apply uint_value_acc.
Qed.

(** The digits [str(c)] prints for [c >= 0]: not empty, all digits, and
    their value is [c]. *)
Lemma str_of_Z_digits c :
  0 <= c ->
  list_ascii_of_string (Py.str_of_Z c) <> [] /\
  forallb Dec.is_digit (list_ascii_of_string (Py.str_of_Z c)) = true /\
  Dec.digits_value (list_ascii_of_string (Py.str_of_Z c)) = c.
Proof.
  intros Hc. unfold Py.str_of_Z, Dec.digits_value. destruct c as [|p|p]; [| |lia].
  - repeat split. discriminate.
  - unfold Z.to_int, NilZero.string_of_int, NilZero.string_of_uint.
    pose proof (DecimalPos.Unsigned.to_uint_nonnil p) as Hnil.
    pose proof (DecimalPos.Unsigned.of_to p) as Hof.
    destruct (Pos.to_uint p) eqn:Hd; [contradiction|..];
      (split; [discriminate|]; split; [apply uint_digits|];
       rewrite uint_value, Hof; reflexivity).
Qed.

Lemma str_of_Z_negative p :
  Py.str_of_Z (Z.neg p) = String "-" (Py.str_of_Z (Z.pos p)).
Proof.
  unfold Py.str_of_Z, Z.to_int, NilZero.string_of_int. reflexivity.
Qed.

(** *** Reading a printed decimal *)

Lemma digit_facts c :
  Dec.is_digit c = true ->
  Dec.is_space c = false /\ (c =? "_")%char = false /\
  forall r, Dec.split_sign (c :: r) = (false, c :: r).
Proof.
  destruct c as [b0 b1 b2 b3 b4 b5 b6 b7].
  destruct b0, b1, b2, b3, b4, b5, b6, b7; intros H;
    try discriminate H; repeat split.
Qed.

Lemma span_digits_app a rest :
  forallb Dec.is_digit a = true ->
  match rest with [] => True | c :: _ => Dec.is_digit c = false end ->
  Dec.span_digits (a ++ rest) = (a, rest).
Proof.
  intros Ha Hrest. induction a as [|c a IH].
  - destruct rest as [|c r]; [reflexivity|]. simpl. rewrite Hrest. reflexivity.
  - simpl in Ha. apply andb_true_iff in Ha. destruct Ha as [Hc Ha].
    simpl. rewrite Hc, (IH Ha). reflexivity.
Qed.

Lemma lstrip_plain l :
  forallb (fun c => negb (Dec.is_space c)) l = true -> Dec.lstrip l = l.
Proof.
  destruct l as [|c l]; [reflexivity|]. simpl. intros H.
  apply andb_true_iff in H. destruct H as [H _].
  apply negb_true_iff in H. rewrite H. reflexivity.
Qed.

Lemma strip_plain l :
  forallb (fun c => negb (Dec.is_space c)) l = true -> Dec.strip l = l.
Proof.
  intros H. unfold Dec.strip. rewrite (lstrip_plain l H), lstrip_plain.
  - apply rev_involutive.
  - rewrite forallb_forall in *. intros c Hc. apply H. apply in_rev. exact Hc.
Qed.

Lemma filter_plain l :
  forallb (fun c => negb (c =? "_")%char) l = true ->
  List.filter (fun c => negb (c =? "_")%char) l = l.
Proof.
  induction l as [|c l IH]; [reflexivity|]. simpl. intros H.
  apply andb_true_iff in H. destruct H as [Hc Hl]. rewrite Hc, (IH Hl). reflexivity.
Qed.

Lemma digits_plain l :
  forallb Dec.is_digit l = true ->
  forallb (fun c => negb (Dec.is_space c)) l = true /\
  forallb (fun c => negb (c =? "_")%char) l = true.
Proof.
  induction l as [|c l IH]; [split; reflexivity|]. simpl. intros H.
  apply andb_true_iff in H. destruct H as [Hc Hl].
  destruct (digit_facts c Hc) as (Hs & Hu & _). destruct (IH Hl) as [H1 H2].
  rewrite Hs, Hu, H1, H2. split; reflexivity.
Qed.

(** The exponent part [E+x] or [E-x] as [str] prints it. *)
Lemma parse_printed_exponent x :
  Dec.parse_exponent
    ("E"%char :: list_ascii_of_string ((if x <? 0 then "" else "+") ++ Py.str_of_Z x)) = Some x /\
  forallb (fun c => negb (Dec.is_space c))
    ("E"%char :: list_ascii_of_string ((if x <? 0 then "" else "+") ++ Py.str_of_Z x)) = true /\
  forallb (fun c => negb (c =? "_")%char)
    ("E"%char :: list_ascii_of_string ((if x <? 0 then "" else "+") ++ Py.str_of_Z x)) = true.
Proof.
  assert (Hmag : forall n, 0 <= n -> forall s,
    Dec.span_digits (list_ascii_of_string (Py.str_of_Z n)) = (list_ascii_of_string (Py.str_of_Z n), []) /\
    list_ascii_of_string (Py.str_of_Z n) <> [] /\
    Dec.digits_value (list_ascii_of_string (Py.str_of_Z n)) = n /\
    forallb (fun c => negb (Dec.is_space c)) (s :: list_ascii_of_string (Py.str_of_Z n))
      = negb (Dec.is_space s) /\
    forallb (fun c => negb (c =? "_")%char) (s :: list_ascii_of_string (Py.str_of_Z n))
      = negb (s =? "_")%char).
  { intros n Hn s. destruct (str_of_Z_digits n Hn) as (Hne & Hd & Hv).
    destruct (digits_plain _ Hd) as [H1 H2].
    split; [|split; [exact Hne|split; [exact Hv|]]].
    - rewrite <- (app_nil_r (list_ascii_of_string (Py.str_of_Z n))) at 1.
      apply span_digits_app; [exact Hd|exact I].
    - simpl. rewrite H1, H2, !andb_true_r. split; reflexivity. }
  unfold Dec.parse_exponent. change (Py.lower_char "E" =? "e")%char with true. cbv iota.
  destruct x as [|p|p].
  - repeat split.
  - change (Z.pos p <? 0) with false. cbv iota.
    change (list_ascii_of_string ("+" ++ Py.str_of_Z (Z.pos p)))
      with ("+"%char :: list_ascii_of_string (Py.str_of_Z (Z.pos p))).
    destruct (Hmag (Z.pos p) ltac:(lia) "+"%char) as (Hspan & Hne & Hv & H1 & H2).
    cbn [Dec.split_sign]. rewrite Hspan.
    destruct (list_ascii_of_string (Py.str_of_Z (Z.pos p))) eqn:Hd; [contradiction|].
    rewrite Hv. split; [reflexivity|].
    cbn [forallb]. cbn [forallb] in H1, H2. rewrite H1, H2. split; reflexivity.
  - change (Z.neg p <? 0) with true. cbv iota. rewrite str_of_Z_negative.
    change (list_ascii_of_string ("" ++ String "-" (Py.str_of_Z (Z.pos p))))
      with ("-"%char :: list_ascii_of_string (Py.str_of_Z (Z.pos p))).
    destruct (Hmag (Z.pos p) ltac:(lia) "-"%char) as (Hspan & Hne & Hv & H1 & H2).
    cbn [Dec.split_sign]. rewrite Hspan.
    destruct (list_ascii_of_string (Py.str_of_Z (Z.pos p))) eqn:Hd; [contradiction|].
    rewrite Hv. split; [reflexivity|].
    cbn [forallb]. cbn [forallb] in H1, H2. rewrite H1, H2. split; reflexivity.
Qed.

(** A text made of an optional minus sign, digits, an optional point
    with digits, and an optional printed exponent is read as the
    decimal it writes. *)
Lemma of_string_printed (neg : bool) a b (dot : bool) x ex :
  a <> [] ->
  forallb Dec.is_digit a = true ->
  forallb Dec.is_digit b = true ->
  (dot = false -> b = []) ->
  (ex = [] /\ x = 0) \/
  ex = "E"%char :: list_ascii_of_string ((if x <? 0 then "" else "+") ++ Py.str_of_Z x) ->
  Dec.of_string
    (string_of_list_ascii
       ((if neg then ["-"%char] else []) ++
        a ++ (if dot then "."%char :: b else []) ++ ex))
  = inr (Dec.Fin neg (Dec.digits_value (a ++ b)) (x - Z.of_nat (List.length b))).
Proof.
  intros Ha Hda Hdb Hdot Hex.
  assert (Hexp : Dec.parse_exponent ex = Some x /\
                 forallb (fun c => negb (Dec.is_space c)) ex = true /\
                 forallb (fun c => negb (c =? "_")%char) ex = true /\
                 match ex with [] => True | c :: _ => Dec.is_digit c = false end /\
                 match ex with "."%char :: _ => False | _ => True end).
  { destruct Hex as [[-> ->] | ->]; [repeat split|].
    destruct (parse_printed_exponent x) as (H1 & H2 & H3).
    repeat split; assumption. }
  destruct Hexp as (Hpe & Hes & Heu & Hed & Hep).
  destruct (digits_plain a Hda) as [Has Hau].
  destruct (digits_plain b Hdb) as [Hbs Hbu].
  set (body := (a ++ (if dot then "."%char :: b else []) ++ ex)%list).
  assert (Hplain : forallb (fun c => negb (Dec.is_space c))
                     ((if neg then ["-"%char] else []) ++ body) = true /\
                   forallb (fun c => negb (c =? "_")%char)
                     ((if neg then ["-"%char] else []) ++ body) = true).
  { unfold body. rewrite !forallb_app, Has, Hau, Hes, Heu.
    destruct neg, dot; cbn [forallb]; rewrite ?Hbs, ?Hbu; split; reflexivity. }
  destruct Hplain as [Hps Hpu].
  unfold Dec.of_string. rewrite list_ascii_of_string_of_list_ascii.
  rewrite (strip_plain _ Hps), (filter_plain _ Hpu).
  assert (Hsign : Dec.split_sign ((if neg then ["-"%char] else []) ++ body) = (neg, body)).
  { destruct neg; [reflexivity|]. cbn [app]. unfold body.
    destruct a as [|c a']; [contradiction|].
    simpl in Hda. apply andb_true_iff in Hda. destruct Hda as [Hc _].
    apply (digit_facts c Hc). }
  rewrite Hsign. unfold Dec.parse_number, body.
  rewrite span_digits_app; [|exact Hda|].
  2:{ destruct dot; [reflexivity|]. cbn [app]. exact Hed. }
  destruct dot.
  - cbn [app]. rewrite span_digits_app; [|exact Hdb|exact Hed].
    destruct (a ++ b)%list eqn:Hab.
    { destruct a; [contradiction|discriminate]. }
    rewrite <- Hab, Hpe. reflexivity.
  - rewrite (Hdot eq_refl). cbn [app].
    assert (Hnodot : match ex with
                     | "."%char :: r' => Dec.span_digits r'
                     | _ => ([], ex)
                     end = ([], ex)).
    { destruct ex as [|c r]; [reflexivity|].
      destruct c as [b0 b1 b2 b3 b4 b5 b6 b7].
      destruct b0, b1, b2, b3, b4, b5, b6, b7; try reflexivity. contradiction. }
    rewrite Hnodot. rewrite app_nil_r.
    destruct a as [|c a'] eqn:Ha'; [contradiction|].
    rewrite Hpe. cbn [List.length]. reflexivity.
Qed.

Lemma of_string_shape s (neg : bool) a b (dot : bool) x ex c e :
  list_ascii_of_string s = ((if neg then ["-"%char] else []) ++
             a ++ (if dot then "."%char :: b else []) ++ ex)%list ->
  a <> [] ->
  forallb Dec.is_digit a = true ->
  forallb Dec.is_digit b = true ->
  (dot = false -> b = []) ->
  (ex = [] /\ x = 0) \/
  ex = "E"%char :: list_ascii_of_string ((if x <? 0 then "" else "+") ++ Py.str_of_Z x) ->
  Dec.digits_value (a ++ b) = c ->
  x - Z.of_nat (List.length b) = e ->
  Dec.of_string s = inr (Dec.Fin neg c e).
Proof.
  intros Hs Ha Hda Hdb Hdot Hex <- <-.
  rewrite <- (string_of_list_ascii_of_string s), Hs.
  apply of_string_printed; assumption.
Qed.

Lemma zeros_are_digits k : forallb Dec.is_digit (List.repeat "0"%char k) = true.
Proof. induction k as [|k IH]; [reflexivity|]. simpl. exact IH. Qed.

Lemma digits_value_leading_zeros k l :
  Dec.digits_value (List.repeat "0"%char k ++ l) = Dec.digits_value l.
Proof.
  unfold Dec.digits_value. rewrite fold_left_app. f_equal.
  induction k as [|k IH]; [reflexivity|]. simpl. exact IH.
Qed.

Lemma forallb_firstn_skipn {A} (f : A -> bool) k l :
  forallb f l = true ->
  forallb f (firstn k l) = true /\ forallb f (skipn k l) = true.
Proof.
  intros H. rewrite <- (firstn_skipn k l), forallb_app in H.
  apply andb_true_iff in H. exact H.
Qed.

(** [Decimal(str(d)) = d] for every finite decimal: the text [str]
    prints, in plain or in scientific notation, is read back as the
    same sign, coefficient and exponent. *)
Lemma of_string_to_str neg c e :
  0 <= c -> Dec.of_string (Dec.to_str (Dec.Fin neg c e)) = inr (Dec.Fin neg c e).
Proof.
  intros Hc. destruct (str_of_Z_digits c Hc) as (Hne & Hd & Hv).
  pose proof (chars_length (Py.str_of_Z c)) as Hlen.
  remember (list_ascii_of_string (Py.str_of_Z c)) as I eqn:HI.
  assert (Hn : (0 < List.length I)%nat).
  { destruct I; [contradiction|simpl; lia]. }
  assert (Hsplit : forall k, (0 < k < List.length I)%nat ->
            list_ascii_of_string (String.substring 0 k (Py.str_of_Z c)) = firstn k I /\
            list_ascii_of_string (String.substring k (List.length I - k) (Py.str_of_Z c)) = skipn k I).
  { intros k Hk. rewrite !chars_substring, <- HI. split; [reflexivity|].
    rewrite <- (length_skipn k I). apply firstn_all. }
  unfold Dec.to_str. cbv zeta. rewrite <- Hlen.
  set (n := Z.of_nat (List.length I)).
  assert (Hnpos : 0 < n) by (unfold n; lia).
  destruct ((e <=? 0) && (e + n >? -6)) eqn:Hplain.
  - rewrite Z.eqb_refl.
    apply andb_true_iff in Hplain. destruct Hplain as [He Hleft].
    apply Z.leb_le in He. apply Z.gtb_lt in Hleft.
    destruct (Z.leb_spec (e + n) 0) as [Hsmall|Hbig].
    + apply (of_string_shape _ neg ["0"%char]
               (List.repeat "0"%char (Z.to_nat (- (e + n))) ++ I) true 0 []).
      * rewrite !chars_app, chars_zeros, <- HI. destruct neg; reflexivity.
      * discriminate.
      * reflexivity.
      * rewrite forallb_app, zeros_are_digits, Hd. reflexivity.
      * discriminate.
      * left. split; reflexivity.
      * change (["0"%char] ++ List.repeat "0"%char (Z.to_nat (- (e + n))) ++ I)%list
          with (List.repeat "0"%char (S (Z.to_nat (- (e + n)))) ++ I)%list.
        rewrite digits_value_leading_zeros. exact Hv.
      * rewrite length_app, repeat_length. unfold n in *. lia.
    + destruct (Z.geb_spec (e + n) n) as [Hall|Hpart].
      * assert (e = 0) by lia. subst e.
        replace (0 + n - n) with 0 by lia.
        apply (of_string_shape _ neg I [] false 0 []).
        -- rewrite !chars_app, chars_zeros, <- HI. cbn [Z.to_nat List.repeat].
           rewrite !app_nil_r. destruct neg; reflexivity.
        -- exact Hne.
        -- exact Hd.
        -- reflexivity.
        -- reflexivity.
        -- left. split; reflexivity.
        -- rewrite app_nil_r. exact Hv.
        -- reflexivity.
      * destruct (Hsplit (Z.to_nat (e + n)) ltac:(unfold n in *; lia)) as [Hfirst Hrest].
        replace (Z.to_nat (n - (e + n))) with (List.length I - Z.to_nat (e + n))%nat
          by (unfold n; lia).
        apply (of_string_shape _ neg (firstn (Z.to_nat (e + n)) I)
                 (skipn (Z.to_nat (e + n)) I) true 0 []).
        -- rewrite !chars_app, Hfirst, Hrest. cbn [list_ascii_of_string].
           rewrite <- ?app_assoc, ?app_nil_r. destruct neg; reflexivity.
        -- destruct I as [|c0 I']; [contradiction|].
           destruct (Z.to_nat (e + n)) eqn:Hk; [lia|]. discriminate.
        -- apply (forallb_firstn_skipn _ _ _ Hd).
        -- apply (forallb_firstn_skipn _ _ _ Hd).
        -- discriminate.
        -- left. split; reflexivity.
        -- rewrite firstn_skipn. exact Hv.
        -- rewrite length_skipn. unfold n in *. lia.
  - assert (Hne1 : e + n <> 1).
    { apply andb_false_iff in Hplain. destruct Hplain as [H|H].
      - apply Z.leb_gt in H. lia.
      - destruct (Z.gtb_spec (e + n) (-6)); [discriminate|lia]. }
    destruct (Z.eqb_spec (e + n) 1) as [|_]; [contradiction|].
    change (1 <=? 0) with false. cbv iota.
    destruct (Z.geb_spec 1 n) as [Hone|Hmany].
    + assert (Hn1 : n = 1) by lia.
      apply (of_string_shape _ neg I [] false (e + n - 1)
               ("E"%char :: list_ascii_of_string ((if e + n - 1 <? 0 then "" else "+")
                                   ++ Py.str_of_Z (e + n - 1)))).
      * rewrite !chars_app, chars_zeros, <- HI. rewrite Hn1.
        cbn [Z.to_nat Z.sub Z.add Z.opp Z.pos_sub List.repeat].
        rewrite !app_nil_r. destruct neg; reflexivity.
      * exact Hne.
      * exact Hd.
      * reflexivity.
      * reflexivity.
      * right. reflexivity.
      * rewrite app_nil_r. exact Hv.
      * cbn [List.length]. lia.
    + destruct (Hsplit 1%nat ltac:(unfold n in *; lia)) as [Hfirst Hrest].
      change (Z.to_nat 1) with 1%nat.
      replace (Z.to_nat (n - 1)) with (List.length I - 1)%nat by (unfold n; lia).
      apply (of_string_shape _ neg (firstn 1 I) (skipn 1 I) true (e + n - 1)
               ("E"%char :: list_ascii_of_string ((if e + n - 1 <? 0 then "" else "+")
                                   ++ Py.str_of_Z (e + n - 1)))).
      * rewrite !chars_app, Hfirst, Hrest. cbn [list_ascii_of_string].
        rewrite <- ?app_assoc, ?app_nil_r. destruct neg; reflexivity.
      * destruct I as [|c0 I']; [contradiction|discriminate].
      * apply (forallb_firstn_skipn _ _ _ Hd).
      * apply (forallb_firstn_skipn _ _ _ Hd).
      * discriminate.
      * right. reflexivity.
      * rewrite firstn_skipn. exact Hv.
      * rewrite length_skipn. unfold n in *. lia.
Qed.

Lemma lower_digits l :
  forallb Dec.is_digit l = true ->
  list_ascii_of_string (Py.lower_string (string_of_list_ascii l)) = l.
Proof.
  induction l as [|c l IH]; [reflexivity|]. simpl. intros H.
  apply andb_true_iff in H. destruct H as [Hc Hl]. rewrite (IH Hl). f_equal.
  destruct c as [b0 b1 b2 b3 b4 b5 b6 b7].
  destruct b0, b1, b2, b3, b4, b5, b6, b7; try discriminate Hc; reflexivity.
Qed.

Lemma lower_string_app s t :
  Py.lower_string (s ++ t) = Py.lower_string s ++ Py.lower_string t.
Proof. induction s as [|c s IH]; [reflexivity|]. simpl. rewrite IH. reflexivity. Qed.

(** The payload digits a NaN prints: none for payload 0. *)
Lemma payload_digits p :
  0 <= p ->
  forallb Dec.is_digit (list_ascii_of_string (if p =? 0 then "" else Py.str_of_Z p)) = true /\
  Dec.digits_value (list_ascii_of_string (if p =? 0 then "" else Py.str_of_Z p)) = p.
Proof.
  intros Hp. destruct (Z.eqb_spec p 0) as [->|_]; [split; reflexivity|].
  destruct (str_of_Z_digits p Hp) as (_ & Hd & Hv). split; assumption.
Qed.

Lemma of_string_to_str_nan neg sig p :
  0 <= p -> Dec.of_string (Dec.to_str (Dec.NaN neg sig p)) = inr (Dec.NaN neg sig p).
Proof.
  intros Hp. destruct (payload_digits p Hp) as [Hd Hv].
  destruct (digits_plain _ Hd) as [Hs Hu].
  unfold Dec.to_str.
  set (ds := list_ascii_of_string (if p =? 0 then "" else Py.str_of_Z p)) in *.
  assert (Hchars : list_ascii_of_string ((if neg then "-" else "") ++ (if sig then "sNaN" else "NaN")
                          ++ (if p =? 0 then "" else Py.str_of_Z p))
                   = ((if neg then ["-"%char] else []) ++
                      (if sig then ["s"%char; "N"%char; "a"%char; "N"%char]
                       else ["N"%char; "a"%char; "N"%char]) ++ ds)%list).
  { rewrite !chars_app. fold ds. destruct neg, sig; reflexivity. }
  unfold Dec.of_string. rewrite Hchars.
  rewrite strip_plain, filter_plain;
    [| destruct neg, sig; cbn [app forallb]; rewrite ?Hu; reflexivity
     | destruct neg, sig; cbn [app forallb]; rewrite ?Hs; reflexivity].
  assert (Hsign : Dec.split_sign
            ((if neg then ["-"%char] else []) ++
             (if sig then ["s"%char; "N"%char; "a"%char; "N"%char]
              else ["N"%char; "a"%char; "N"%char]) ++ ds)
          = (neg, ((if sig then ["s"%char; "N"%char; "a"%char; "N"%char]
                    else ["N"%char; "a"%char; "N"%char]) ++ ds)%list)).
  { destruct neg, sig; reflexivity. }
  rewrite Hsign.
  assert (Hnum : Dec.parse_number
            ((if sig then ["s"%char; "N"%char; "a"%char; "N"%char]
              else ["N"%char; "a"%char; "N"%char]) ++ ds) = None).
  { destruct sig; reflexivity. }
  rewrite Hnum. unfold Dec.parse_special.
  assert (Hlow : Py.lower_string
            (string_of_list_ascii
               ((if sig then ["s"%char; "N"%char; "a"%char; "N"%char]
                 else ["N"%char; "a"%char; "N"%char]) ++ ds))
          = (if sig then "snan" else "nan") ++ string_of_list_ascii ds).
  { assert (Hds : Py.lower_string (string_of_list_ascii ds) = string_of_list_ascii ds).
    { rewrite <- (lower_digits ds Hd) at 2. symmetry. apply string_of_list_ascii_of_string. }
    destruct sig; cbn [app string_of_list_ascii Py.lower_string]; rewrite Hds; reflexivity. }
  rewrite Hlow.
  assert (Hinf : forall t, ((t =? "inf") || (t =? "infinity"))%string = false \/
                           ~ (exists r, t = (if sig then "snan" else "nan") ++ r)).
  { intros t.
    destruct (String.eqb_spec t "inf") as [->|_];
      [right; intros [r Hr]; destruct sig; discriminate|].
    destruct (String.eqb_spec t "infinity") as [->|_];
      [right; intros [r Hr]; destruct sig; discriminate|].
    left. reflexivity. }
  destruct (Hinf ((if sig then "snan" else "nan") ++ string_of_list_ascii ds)) as [-> | Hno];
    [|exfalso; apply Hno; eexists; reflexivity].
  rewrite chars_app, list_ascii_of_string_of_list_ascii.
  destruct sig; cbn [list_ascii_of_string app]; rewrite Hd, Hv; reflexivity.
Qed.

(** Coefficients and payloads are never negative in a decimal the
    constructor or the multiplication has produced. *)
Lemma digits_value_nonneg l acc :
  0 <= acc -> forallb Dec.is_digit l = true ->
  0 <= fold_left (fun (acc : Z) (c : ascii) => 10 * acc + (Z.of_N (N_of_ascii c) - 48)) l acc.
Proof.
  revert acc. induction l as [|c l IH]; intros acc Hacc H; [exact Hacc|].
  simpl in H. apply andb_true_iff in H. destruct H as [Hc Hl].
  cbn [fold_left]. apply IH; [|exact Hl].
  unfold Dec.is_digit in Hc. apply andb_true_iff in Hc. destruct Hc as [H1 _].
  apply N.leb_le in H1. lia.
Qed.

Lemma span_digits_digits l a r :
  Dec.span_digits l = (a, r) -> forallb Dec.is_digit a = true.
Proof.
  revert a r. induction l as [|c l IH]; intros a r H.
  - inversion H. reflexivity.
  - simpl in H. destruct (Dec.is_digit c) eqn:Hc.
    + destruct (Dec.span_digits l) as [ds r'] eqn:Hl. inversion H; subst.
      simpl. rewrite Hc. eapply IH. reflexivity.
    + inversion H. reflexivity.
Qed.

Lemma of_string_well_formed s d :
  Dec.of_string s = inr d -> decimal_well_formed d.
Proof.
  unfold Dec.of_string.
  destruct (Dec.split_sign _) as [neg r].
  destruct (Dec.parse_number r) as [[c e]|] eqn:Hnum.
  - intros H. inversion H; subst. cbn. revert Hnum. unfold Dec.parse_number.
    destruct (Dec.span_digits r) as [int r1] eqn:Hint.
    destruct (match r1 with "."%char :: r' => Dec.span_digits r' | _ => ([], r1) end)
      as [frac r2] eqn:Hfrac.
    assert (Hdf : forallb Dec.is_digit frac = true).
    { destruct r1 as [|c1 r1']; [inversion Hfrac; reflexivity|].
      destruct c1 as [b0 b1 b2 b3 b4 b5 b6 b7].
      destruct b0, b1, b2, b3, b4, b5, b6, b7;
        first [inversion Hfrac; reflexivity | eapply span_digits_digits; eassumption]. }
    pose proof (span_digits_digits _ _ _ Hint) as Hdi.
    destruct (int ++ frac)%list eqn:Hcat; [discriminate|].
    destruct (Dec.parse_exponent r2); [|discriminate].
    intros H1. inversion H1; subst. rewrite <- Hcat.
    apply digits_value_nonneg; [lia|]. rewrite forallb_app, Hdi, Hdf. reflexivity.
  - unfold Dec.parse_special.
    destruct (_ || _)%bool; [intros H; inversion H; exact I|].
    destruct (match list_ascii_of_string _ with "s"%char :: r0 => (true, r0) | r0 => (false, r0) end)
      as [sig r0].
    repeat (let c := fresh "c" in destruct r0 as [|c r0]; [discriminate|];
            destruct c as [[] [] [] [] [] [] [] []]; try discriminate).
    destruct (forallb Dec.is_digit r0) eqn:Hd; [|discriminate].
    intros H. inversion H; subst. cbn.
    apply digits_value_nonneg; [lia|exact Hd].
Qed.

Lemma tuple_digits_nonneg l : forall zs acc,
  Dec.tuple_digits l = Some zs -> 0 <= acc ->
  0 <= fold_left (fun a z => 10 * a + z) zs acc.
Proof.
  induction l as [|v l IH]; intros zs acc H Hacc.
  - inversion H. exact Hacc.
  - simpl in H. destruct (Py.as_int v) as [z|]; [|discriminate].
    destruct (Dec.tuple_digits l) as [zs'|]; [|discriminate].
    destruct ((0 <=? z) && (z <=? 9)) eqn:Hz; [|discriminate].
    inversion H; subst. cbn [fold_left]. apply (IH zs'); [reflexivity|].
    apply andb_true_iff in Hz. destruct Hz as [Hz _]. apply Z.leb_le in Hz. lia.
Qed.

Lemma of_sequence_well_formed l d :
  Dec.of_sequence l = inr d -> decimal_well_formed d.
Proof.
  unfold Dec.of_sequence.
  destruct l as [|sign [|digits [|exponent [|x l]]]]; try discriminate.
  destruct (Py.as_int sign) as [s|]; [|discriminate].
  destruct ((s =? 0) || (s =? 1)); [|discriminate].
  set (coefficient := match digits with VList ds => _ | _ => _ end).
  assert (Hco : forall c, coefficient = inr c -> 0 <= c).
  { unfold coefficient. intros c. destruct digits; try discriminate.
    destruct (Dec.tuple_digits l) as [zs|] eqn:Hzs; [|discriminate].
    intros H. inversion H. eapply tuple_digits_nonneg; [eassumption|lia]. }
  destruct coefficient as [e|c].
  - destruct exponent; try discriminate.
    repeat (try discriminate;
            match goal with
            | |- context [match ?s with EmptyString => _ | String _ _ => _ end] =>
                destruct s
            | |- context [match ?a with Ascii _ _ _ _ _ _ _ _ => _ end] =>
                destruct a as [[] [] [] [] [] [] [] []]
            end).
  - specialize (Hco c eq_refl).
    destruct exponent; try discriminate;
      try (intros H; inversion H; subst; exact Hco).
    repeat (try discriminate; try (intros H; inversion H; subst; first [exact Hco|exact I]);
            match goal with
            | |- context [match ?s with EmptyString => _ | String _ _ => _ end] =>
                destruct s
            | |- context [match ?a with Ascii _ _ _ _ _ _ _ _ => _ end] =>
                destruct a as [[] [] [] [] [] [] [] []]
            end).
Qed.

Lemma of_pyval_well_formed v d :
  Dec.of_pyval v = inr d -> decimal_well_formed d.
Proof.
  destruct v; cbn [Dec.of_pyval]; try discriminate.
  - intros H. inversion H. cbn. lia.
  - intros H. inversion H. cbn. lia.
  - apply of_string_well_formed.
  - apply of_sequence_well_formed.
Qed.

Lemma fix_ctx_well_formed neg c e d :
  0 <= c -> Dec.fix_ctx neg c e = inr d -> decimal_well_formed d.
Proof.
  intros Hc. unfold Dec.fix_ctx, Dec.round_half_even.
  destruct (c =? 0); [intros H; inversion H; cbn; lia|].
  destruct (_ >? Dec.Etop); [discriminate|].
  set (exp_min := Z.max _ Dec.Etiny).
  destruct (Z.ltb_spec e exp_min) as [Hlt|_];
    [|intros H; inversion H; exact Hc].
  assert (Hp : 0 < 10 ^ (exp_min - e)) by (apply DecFacts.pow10_pos; lia).
  assert (Hq : 0 <= c / 10 ^ (exp_min - e)) by (apply Z.div_pos; lia).
  cbv beta iota zeta.
  destruct (_ || _)%bool.
  - destruct (_ >? Dec.prec).
    + destruct (_ >? Dec.Etop); [discriminate|].
      intros H. inversion H. cbn. apply Z.div_pos; lia.
    + destruct (_ >? Dec.Etop); [discriminate|].
      intros H. inversion H. cbn. lia.
  - destruct (_ >? Dec.Etop); [discriminate|].
    intros H. inversion H. exact Hq.
Qed.

Lemma mul_well_formed a b d :
  decimal_well_formed a -> decimal_well_formed b ->
  Dec.mul a b = inr d -> decimal_well_formed d.
Proof.
  assert (Hnan : forall n p, 0 <= p -> decimal_well_formed (Dec.fix_nan n p)).
  { intros n p Hp. unfold Dec.fix_nan. cbn.
    destruct (_ >? Dec.prec); [|exact Hp].
    apply Z.mod_pos_bound. lia. }
  intros Ha Hb.
  destruct a as [n c e|n|n sig p], b as [n' c' e'|n'|n' sig' p']; cbn [Dec.mul];
    try destruct sig; try destruct sig'; try discriminate;
    try (intros H; inversion H; subst; first [exact I | apply Hnan; assumption]).
  - apply fix_ctx_well_formed. cbn in Ha, Hb. nia.
  - destruct (c =? 0); [discriminate|]. intros H; inversion H; exact I.
  - destruct (c' =? 0); [discriminate|]. intros H; inversion H; exact I.
Qed.

(** The round trip for every decimal. *)
Lemma of_string_to_str_any d :
  decimal_well_formed d -> Dec.of_string (Dec.to_str d) = inr d.
Proof.
  destruct d as [neg c e|neg|neg sig p]; cbn [decimal_well_formed].
  - apply of_string_to_str.
  - intros _. destruct neg; reflexivity.
  - apply of_string_to_str_nan.
Qed.

(** X16.  The amount travels without loss.  The order carries the size
    as the text [str(position_size)]; whatever the balance the venue
    reported and whatever the configured percentage, reading that text
    with [Decimal] gives back exactly the size that was computed: its
    sign, every digit and its exponent, in plain or in scientific
    notation. *)
Theorem amount_reads_back_as_the_size
  config session data tr balance tr1 size order :
  _get_gmgn_balance config session tr = (inr balance, tr1) ->
  position_size config balance = inr size ->
  order_payload config data size = inr order ->
  (let* amount := Py.subscript order "amount" in Dec.of_pyval amount) = inr size.
Proof.
  intros Hbal Hsize Horder.
  rewrite (order_payload_amount _ _ _ _ Horder). cbn [res_bind Dec.of_pyval].
  apply of_string_to_str_any.
  assert (Hwb : decimal_well_formed balance).
  { revert Hbal. unfold _get_gmgn_balance, try_except.
    destruct (read_balance config session tr) as [[e|b] t] eqn:Hread;
      intros H; inversion H; subst; [cbn; lia|].
    revert Hread. unfold read_balance. unfold_monad. intros Hread.
    repeat case_match;
      repeat match goal with
             | H : (_, _) = (_, _) |- _ => inversion H; subst; clear H
             end;
      try discriminate.
    eapply of_pyval_well_formed. eassumption. }
  revert Hsize. unfold position_size, res_bind.
  destruct (config_at config "trading" "position_size_pct") as [e|v]; [discriminate|].
  destruct (Dec.of_pyval v) as [e|pct] eqn:Hpct; [discriminate|].
  apply mul_well_formed; [exact Hwb|]. eapply of_pyval_well_formed. exact Hpct.
Qed.

(** A third of 123456789.123456789, sent as "41152263.0411111107". *)
Lemma amount_reads_back_as_the_size_witness :
  Dec.of_pyval (VStr "41152263.0411111107")
  = inr (Dec.Fin false 411522630411111107 (-10)).
Proof.
  exact (amount_reads_back_as_the_size
           (Scenario.config_with (VStr "0.333333333333"))
           (Scenario.session
              {| Scenario.dexscreener := Scenario.answer 200 (Scenario.snapshot "0xDEF");
                 Scenario.rugcheck := Scenario.answer 200 (Scenario.audit "GOOD" 90);
                 Scenario.balance :=
                   Scenario.answer 200 (VDict [("available", VStr "123456789.123456789")]);
                 Scenario.orders := Scenario.answer 201 Scenario.confirmation |})
           (Scenario.snapshot "0xDEF") []
           (Dec.Fin false 123456789123456789 (-9)) [Scenario.balance_request]
           (Dec.Fin false 411522630411111107 (-10))
           (Scenario.order_with "41152263.0411111107")
           ltac:(vm_compute; reflexivity) ltac:(vm_compute; reflexivity)
           ltac:(vm_compute; reflexivity)).
Defined.
